(** * Concept clarifier relay (app.py)

    A shallow embedding of the backend of [app.py]: the module start-up
    that reads the API credential, the core function [clarify_concept]
    that composes the prompt and calls the chat-completion service, and
    the Flask view [clarify] behind [POST /clarify].

    Python strings are sequences of Unicode code points, values read from
    a JSON body are the Python objects [json.loads] builds, and the two
    effects of the code (the call to the completion service, the line
    printed to the server log) are the constructors of a small program
    monad that is run against an arbitrary service.

    The script of the page that the [__main__] block writes (the listener
    of the form) is embedded the same way, as a program over [fetch], and
    run against an arbitrary network or against the application itself. *)

From Stdlib Require Import ZArith NArith QArith String Ascii DecimalString SpecFloat Lia.
From stdpp Require Import base option list gmap.

Set Warnings "-register-all".
Local Close Scope Q_scope.
Local Open Scope Z_scope.

(** ** Python strings *)

(** A [str] is a list of code points. *)
Abbreviation pystr := (list N).

(** An ASCII literal of the source, as a [str]. *)
Definition lit (s : string) : pystr :=
  List.map N_of_ascii (list_ascii_of_string s).

Module PyStr.

(** [str.isspace] on one character (CPython's [_PyUnicode_IsWhitespace]):
    the characters that [str.strip()] removes when called without
    argument. *)
Definition isspace (c : N) : bool :=
  ((0x09 <=? c) && (c <=? 0x0D) ||
   (0x1C <=? c) && (c <=? 0x20) ||
   (c =? 0x85) || (c =? 0xA0) || (c =? 0x1680) ||
   (0x2000 <=? c) && (c <=? 0x200A) ||
   (c =? 0x2028) || (c =? 0x2029) || (c =? 0x202F) ||
   (c =? 0x205F) || (c =? 0x3000))%N.

Fixpoint lstrip (s : pystr) : pystr :=
  match s with
  | c :: s' => if isspace c then lstrip s' else s
  | [] => []
  end.

Definition rstrip (s : pystr) : pystr := rev (lstrip (rev s)).

(** [s.strip()] *)
Definition strip (s : pystr) : pystr := rstrip (lstrip s).

(** [bool(s)] for a string: non-empty. *)
Definition nonempty (s : pystr) : bool :=
  match s with [] => false | _ :: _ => true end.

(** A string of whitespace only (or empty). *)
Definition blank (s : pystr) : bool := forallb isspace s.

End PyStr.

(** ** Python values *)

(** The objects [request.get_json()] can return: [None], [bool], [int],
    [float], [str], [list] and [dict] (with [str] keys, in insertion
    order). *)
Inductive pyval : Type :=
| PNone
| PBool (b : bool)
| PInt (n : Z)
| PFloat (x : spec_float)
| PStr (s : pystr)
| PList (l : list pyval)
| PDict (d : list (pystr * pyval)).

(** Truth value testing, as [if not v] uses it. *)
Definition truthy (v : pyval) : bool :=
  match v with
  | PNone => false
  | PBool b => b
  | PInt n => negb (n =? 0)
  | PFloat (S754_zero _) => false
  | PFloat _ => true
  | PStr s => PyStr.nonempty s
  | PList l => match l with [] => false | _ => true end
  | PDict d => match d with [] => false | _ => true end
  end.

(** [type(v).__name__] *)
Definition type_name (v : pyval) : pystr :=
  match v with
  | PNone => lit "NoneType"
  | PBool _ => lit "bool"
  | PInt _ => lit "int"
  | PFloat _ => lit "float"
  | PStr _ => lit "str"
  | PList _ => lit "list"
  | PDict _ => lit "dict"
  end.

(** Exceptions (instances of classes derived from [Exception]): the class
    name and what [str(e)] gives. *)
Record Exception : Type := mkException { exc_class : pystr; exc_str : pystr }.

Definition AttributeError (v : pyval) (attr : pystr) : Exception :=
  mkException (lit "AttributeError")
    (lit "'" ++ type_name v ++ lit "' object has no attribute '" ++ attr ++ lit "'").

Definition IndexError : Exception :=
  mkException (lit "IndexError") (lit "list index out of range").

Definition ValueError (msg : pystr) : Exception :=
  mkException (lit "ValueError") msg.

(** Lookup in a [dict]: the first entry of the key. *)
Fixpoint dict_lookup {V : Type} (key : pystr) (d : list (pystr * V)) : option V :=
  match d with
  | [] => None
  | (k, v) :: d' => if bool_decide (k = key) then Some v else dict_lookup key d'
  end.

(** ** The completion service *)

(** The client object; it holds the credential. *)
Record OpenAI : Type := { api_key : pystr }.

(** Keyword arguments of [client.chat.completions.create]. Each message is
    the [dict] literal of the source. [temperature] is the decimal literal
    of the source. *)
Record create_kwargs : Type := {
  model : pystr;
  messages : list (list (pystr * pystr));
  temperature : Q;
  max_tokens : Z
}.

(** What the service gives back: the part of a [ChatCompletion] the code
    reads. [content] is [None] when the model gave no text. *)
Record ChatCompletionMessage : Type := { content : option pystr }.
Record Choice : Type := { message : ChatCompletionMessage }.
Record ChatCompletion : Type := { choices : list Choice }.

(** The outcome of one call: it raises or it returns. *)
Definition outcome : Type := Exception + ChatCompletion.

(** ** Programs *)

(** A handler is a program over two effects: a call to the completion
    service, and a line printed to the server log. It ends by returning a
    value or with an exception nobody caught. *)
Inductive io (A : Type) : Type :=
| Return (a : A)
| Raise (e : Exception)
| Print (line : pystr) (k : io A)
| Create (c : OpenAI) (kw : create_kwargs) (k : outcome -> io A).

Arguments Return {A} a.
Arguments Raise {A} e.
Arguments Print {A} line k.
Arguments Create {A} c kw k.

Fixpoint bind {A B : Type} (p : io A) (f : A -> io B) : io B :=
  match p with
  | Return a => f a
  | Raise e => Raise e
  | Print line k => Print line (bind k f)
  | Create c kw k => Create c kw (fun o => bind (k o) f)
  end.

Notation "x <- p ;; q" := (bind p (fun x => q))
  (at level 100, p at next level, right associativity).

(** [try: p except Exception as e: h e] *)
Fixpoint try_except {A : Type} (p : io A) (h : Exception -> io A) : io A :=
  match p with
  | Return a => Return a
  | Raise e => h e
  | Print line k => Print line (try_except k h)
  | Create c kw k => Create c kw (fun o => try_except (k o) h)
  end.

(** [client.chat.completions.create(...)] with keyword arguments [kw]:
    the outcome of the service, raised when it is an exception. *)
Definition chat_completions_create (c : OpenAI) (kw : create_kwargs) : io ChatCompletion :=
  Create c kw (fun o => match o with inl e => Raise e | inr r => Return r end).

(** [print(line)] *)
Definition print (line : pystr) : io unit := Print line (Return tt).

(** [l[i]] on a list *)
Definition getitem {A : Type} (l : list A) (i : nat) : io A :=
  match l !! i with
  | Some x => Return x
  | None => Raise IndexError
  end.

(** [o.strip()] where [o] is a [str] or [None] *)
Definition strip_method (o : option pystr) : io pystr :=
  match o with
  | Some s => Return (PyStr.strip s)
  | None => Raise (AttributeError PNone (lit "strip"))
  end.

(** [data.get(key, default)]: only a [dict] has the method. *)
Definition get_method (data : pyval) (key : pystr) (dflt : pyval) : io pyval :=
  match data with
  | PDict d => Return (default dflt (dict_lookup key d))
  | _ => Raise (AttributeError data (lit "get"))
  end.

(** ** Running a program *)

(** What a run leaves behind: the calls made to the service, in order,
    and the lines printed to the server log, in order. *)
Record world : Type := { calls : list (OpenAI * create_kwargs); stdout : list pystr }.

(** The service is any function of the calls made so far and of the
    present call: nothing is assumed about what it answers. *)
Definition service : Type :=
  list (OpenAI * create_kwargs) -> OpenAI -> create_kwargs -> outcome.

Fixpoint run {A : Type} (svc : service) (p : io A) (w : world) : (Exception + A) * world :=
  match p with
  | Return a => (inr a, w)
  | Raise e => (inl e, w)
  | Print line k =>
      run svc k {| calls := calls w; stdout := stdout w ++ [line] |}
  | Create c kw k =>
      run svc (k (svc (calls w) c kw))
        {| calls := calls w ++ [(c, kw)]; stdout := stdout w |}
  end.

(** ** Module start-up *)

(** The process either died while the module was loading, or holds the
    client and can serve requests. *)
Inductive process : Type :=
| Aborted (e : Exception)
| Serving (client : OpenAI).

Definition missing_key_message : pystr :=
  lit "OPENAI_API_KEY environment variable not set. " ++
  lit "Please create a .env file in the same directory as app.py " ++
  lit "and add OPENAI_API_KEY=YOUR_API_KEY_HERE to it.".

(** [load_dotenv()] (line 7): the variables of the [.env] file (none when
    there is no file) are added to [os.environ]; a variable that is
    already set keeps its value. *)
Definition load_dotenv (dotenv os_environ : gmap (list N) (list N))
  : gmap (list N) (list N) :=
  os_environ ∪ dotenv.

(** Lines 11-18, with [environ] the environment they read. [os.getenv]
    gives [None] for a variable that is not set, and [not] holds of
    [None] and of the empty string. *)
Definition read_credential (environ : gmap (list N) (list N)) : process :=
  let openai_api_key := environ !! lit "OPENAI_API_KEY" in
  match openai_api_key with
  | None => Aborted (ValueError missing_key_message)
  | Some key =>
      if negb (truthy (PStr key))
      then Aborted (ValueError missing_key_message)
      else Serving {| api_key := key |}
  end.

(** Loading the module, from the [.env] file and the environment the
    process was started with. *)
Definition startup (dotenv os_environ : gmap (list N) (list N)) : process :=
  read_credential (load_dotenv dotenv os_environ).

(** ** The handlers *)

(** An HTTP response with a JSON body: what [jsonify(...)] wraps, and the
    status code (200 when the view gives none). *)
Record response : Type := { json : pyval; status : Z }.

Definition system_prompt : pystr :=
  lit "You are an AI assistant for engineering students on the Edwisely platform. " ++
  lit "Your goal is to provide clear, concise, and accurate explanations of engineering concepts. " ++
  lit "Always tailor your explanation for an engineering student, assuming they have some foundational knowledge " ++
  lit "but need clarity on a specific topic. " ++
  lit "Where possible, include a simple, relevant example or analogy to aid understanding. " ++
  lit "Conclude with a short, thought-provoking question related to the concept " ++
  lit "to encourage deeper understanding and critical thinking.".

Definition fallback : pystr :=
  lit "I apologize, but I couldn't generate an explanation at this moment. Please try again later.".

Section Handlers.

(** [repr] of a [float], a [list] or a [dict]: a built-in of the
    interpreter, left open. *)
Variable py_repr : pyval -> pystr.

(** The module-level [client]. *)
Variable client : OpenAI.

(** [str(v)], which is what a replacement field of an f-string puts in
    the string. *)
Definition py_str (v : pyval) : pystr :=
  match v with
  | PStr s => s
  | PNone => lit "None"
  | PBool true => lit "True"
  | PBool false => lit "False"
  | PInt n => lit (NilZero.string_of_int (Z.to_int n))
  | PFloat _ | PList _ | PDict _ => py_repr v
  end.

(** The first f-string of [clarify_concept]. *)
Definition query_instruction (concept_query : pyval) : pystr :=
  lit "Explain the concept: '" ++ py_str concept_query ++ lit "'.".

(** The second f-string of [clarify_concept]. *)
Definition context_clause (subject_context : pyval) : pystr :=
  lit " Please explain it in the context of '" ++ py_str subject_context ++ lit "'.".

(** The local [user_message] once lines 36-38 have run. *)
Definition user_message (concept_query subject_context : pyval) : pystr :=
  let user_message := query_instruction concept_query in
  if truthy subject_context
  then user_message ++ context_clause subject_context
  else user_message.

Definition clarify_concept (concept_query subject_context : pyval) : io pystr :=
  let user_message := user_message concept_query subject_context in
  try_except
    (response <- chat_completions_create client
                   {| model := lit "gpt-3.5-turbo";
                      messages :=
                        [ [(lit "role", lit "system"); (lit "content", system_prompt)];
                          [(lit "role", lit "user"); (lit "content", user_message)] ];
                      temperature := 0.7%Q;
                      max_tokens := 300 |} ;;
     choice <- getitem (choices response) 0 ;;
     strip_method (content (message choice)))
    (fun e =>
       _ <- print (lit "Error calling OpenAI API: " ++ exc_str e) ;;
       Return fallback).

(** The view of [POST /clarify]; [data] is what [request.get_json()]
    returned. *)
Definition clarify (data : pyval) : io response :=
  concept_query <- get_method data (lit "query") PNone ;;
  subject_context <- get_method data (lit "context") (PStr (lit "")) ;;
  if negb (truthy concept_query)
  then Return {| json := PDict [(lit "error", PStr (lit "Concept query is required."))];
                 status := 400 |}
  else
    explanation <- clarify_concept concept_query subject_context ;;
    Return {| json := PDict [(lit "explanation", PStr explanation)];
              status := 200 |}.

End Handlers.

(** A request reaches the view only in a process that finished loading
    the module; the view then runs with the client made at start-up. *)
Definition serve (py_repr : pyval -> pystr) (p : process) (data : pyval) : option (io response) :=
  match p with
  | Aborted _ => None
  | Serving client => Some (clarify py_repr client data)
  end.

(** ** The script of the page (lines 211-267)

    The handler of the form's [submit] event, in the HTML that the
    [__main__] block writes to [templates/index.html]. A JavaScript string
    is taken as its sequence of code points, and a JSON text (the body of
    the request, the body of the response) as the datum it denotes. *)

Module Page.

(** The characters [String.prototype.trim] removes: WhiteSpace and
    LineTerminator of ECMAScript. *)
Definition js_whitespace (c : N) : bool :=
  ((0x09 <=? c) && (c <=? 0x0D) ||
   (c =? 0x20) || (c =? 0xA0) || (c =? 0x1680) ||
   (0x2000 <=? c) && (c <=? 0x200A) ||
   (c =? 0x2028) || (c =? 0x2029) || (c =? 0x202F) ||
   (c =? 0x205F) || (c =? 0x3000) || (c =? 0xFEFF))%N.

Fixpoint trim_start (s : pystr) : pystr :=
  match s with
  | c :: s' => if js_whitespace c then trim_start s' else s
  | [] => []
  end.

Definition trim_end (s : pystr) : pystr := rev (trim_start (rev s)).

(** [s.trim()] *)
Definition trim (s : pystr) : pystr := trim_end (trim_start s).

(** An [Error] object: its [name] and its [message]. *)
Record js_error : Type := { name : pystr; message : pystr }.

(** What the handler reads and writes of the document, and the calls of
    [console.error]. *)
Record dom : Type := {
  conceptInput_value : pystr;
  contextInput_value : pystr;
  responseText_textContent : pystr;
  loadingIndicator_style_display : pystr;
  submitButton_disabled : bool;
  console : list (pystr * js_error)
}.

Definition set_responseText (text : pystr) (page : dom) : dom :=
  {| conceptInput_value := conceptInput_value page;
     contextInput_value := contextInput_value page;
     responseText_textContent := text;
     loadingIndicator_style_display := loadingIndicator_style_display page;
     submitButton_disabled := submitButton_disabled page;
     console := console page |}.

Definition set_loadingIndicator_display (display : pystr) (page : dom) : dom :=
  {| conceptInput_value := conceptInput_value page;
     contextInput_value := contextInput_value page;
     responseText_textContent := responseText_textContent page;
     loadingIndicator_style_display := display;
     submitButton_disabled := submitButton_disabled page;
     console := console page |}.

Definition set_submitButton_disabled (disabled : bool) (page : dom) : dom :=
  {| conceptInput_value := conceptInput_value page;
     contextInput_value := contextInput_value page;
     responseText_textContent := responseText_textContent page;
     loadingIndicator_style_display := loadingIndicator_style_display page;
     submitButton_disabled := disabled;
     console := console page |}.

Definition console_error (label : pystr) (error : js_error) (page : dom) : dom :=
  {| conceptInput_value := conceptInput_value page;
     contextInput_value := contextInput_value page;
     responseText_textContent := responseText_textContent page;
     loadingIndicator_style_display := loadingIndicator_style_display page;
     submitButton_disabled := submitButton_disabled page;
     console := console page ++ [(label, error)] |}.

(** The second argument of [fetch]. [body] is the datum whose JSON text
    [JSON.stringify] builds. *)
Record fetch_init : Type := {
  method : pystr;
  headers : list (pystr * pystr);
  body : pyval
}.

(** A [Response]: [ok], and what [response.json()] resolves to, or the
    error it rejects with when the body is not JSON. *)
Record Response : Type := { ok : bool; json : js_error + pyval }.

(** [fetch] rejects (the request could not be made) or resolves. *)
Definition fetch_outcome : Type := js_error + Response.

(** The handler as a program whose one effect is [fetch]; it ends with a
    value or with an exception nobody caught. *)
Inductive js (A : Type) : Type :=
| Done (a : A)
| Throw (e : js_error)
| Fetch (url : pystr) (init : fetch_init) (k : fetch_outcome -> js A).

Arguments Done {A} a.
Arguments Throw {A} e.
Arguments Fetch {A} url init k.

Fixpoint js_bind {A B : Type} (p : js A) (f : A -> js B) : js B :=
  match p with
  | Done a => f a
  | Throw e => Throw e
  | Fetch url init k => Fetch url init (fun o => js_bind (k o) f)
  end.

Notation "x <-- p ;; q" := (js_bind p (fun x => q))
  (at level 100, p at next level, right associativity).

(** [try { p } catch (error) { h error }] *)
Fixpoint try_catch {A : Type} (p : js A) (h : js_error -> js A) : js A :=
  match p with
  | Done a => Done a
  | Throw e => h e
  | Fetch url init k => Fetch url init (fun o => try_catch (k o) h)
  end.

(** [await fetch(url, init)] *)
Definition fetch (url : pystr) (init : fetch_init) : js Response :=
  Fetch url init (fun o => match o with inl e => Throw e | inr r => Done r end).

(** [await response.json()] *)
Definition response_json (response : Response) : js pyval :=
  match json response with
  | inl e => Throw e
  | inr v => Done v
  end.

(** A program runs against a network with a state of its own. *)
Fixpoint exec {S A : Type} (net : pystr -> fetch_init -> S -> fetch_outcome * S)
    (p : js A) (s : S) : (js_error + A) * S :=
  match p with
  | Done a => (inr a, s)
  | Throw e => (inl e, s)
  | Fetch url init k => let (o, s') := net url init s in exec net (k o) s'
  end.

(** A network that keeps the list of the requests made and answers as
    [reply] says: nothing is assumed about the answers. *)
Definition recording (reply : list (pystr * fetch_init) -> pystr -> fetch_init -> fetch_outcome)
  : pystr -> fetch_init -> list (pystr * fetch_init) ->
    fetch_outcome * list (pystr * fetch_init) :=
  fun url init sent => (reply sent url init, sent ++ [(url, init)]).

(** JavaScript truth test of a value read from parsed JSON; [None] is
    [undefined]. *)
Definition js_truthy (v : option pyval) : bool :=
  match v with
  | None => false
  | Some PNone => false
  | Some (PBool b) => b
  | Some (PInt n) => negb (n =? 0)
  | Some (PFloat (S754_zero _)) => false
  | Some (PFloat S754_nan) => false
  | Some (PFloat _) => true
  | Some (PStr s) => PyStr.nonempty s
  | Some (PList _) => true
  | Some (PDict _) => true
  end.

Section Script.

(** [String(v)] for a value that is not a string: left open. *)
Variable js_repr : pyval -> pystr.

(** The [TypeError] of the engine for reading a property of [null]. *)
Variable null_property_error : pystr -> js_error.

(** [String(v)] *)
Definition to_string (v : pyval) : pystr :=
  match v with
  | PStr s => s
  | _ => js_repr v
  end.

(** [v.prop] for a datum parsed from JSON and a property that no
    prototype has, as [error] and [explanation]. *)
Definition get_property (v : pyval) (prop : pystr) : js (option pyval) :=
  match v with
  | PNone => Throw (null_property_error prop)
  | PDict d => Done (dict_lookup prop d)
  | _ => Done None
  end.

(** [v || s] for a string literal [s] that is not empty. *)
Definition or_else (v : option pyval) (s : pystr) : pyval :=
  match v with
  | Some x => if js_truthy v then x else PStr s
  | None => PStr s
  end.

(** [new Error(v)] *)
Definition new_Error (v : pyval) : js_error :=
  {| name := lit "Error"; message := to_string v |}.

(** What [node.textContent = v] stores: [undefined] and [null] give the
    empty string. *)
Definition text_content (v : option pyval) : pystr :=
  match v with
  | None => lit ""
  | Some PNone => lit ""
  | Some x => to_string x
  end.

(** The listener of the form's [submit] event. *)
Definition on_submit (page : dom) : js dom :=
  let concept := trim (conceptInput_value page) in
  let context := trim (contextInput_value page) in
  if negb (PyStr.nonempty concept)
  then Done (set_responseText (lit "Please enter a concept to clarify.") page)
  else
    let page :=
      set_submitButton_disabled true
        (set_loadingIndicator_display (lit "block")
           (set_responseText (lit "") page)) in
    page <-- try_catch
      (response <-- fetch (lit "/clarify")
                      {| method := lit "POST";
                         headers := [(lit "Content-Type", lit "application/json")];
                         body := PDict [(lit "query", PStr concept);
                                        (lit "context", PStr context)] |} ;;
       if negb (ok response)
       then
         errorData <-- response_json response ;;
         error <-- get_property errorData (lit "error") ;;
         Throw (new_Error (or_else error (lit "Something went wrong on the server.")))
       else
         data <-- response_json response ;;
         explanation <-- get_property data (lit "explanation") ;;
         Done (set_responseText (text_content explanation) page))
      (fun error =>
         Done (set_responseText
                 (lit "Error: " ++ message error ++ lit ". Please try again.")
                 (console_error (lit "Error:") error page))) ;;
    Done (set_submitButton_disabled false
            (set_loadingIndicator_display (lit "none") page)).

End Script.

End Page.

(** ** The page and the application together *)

(** What [fetch] gets from the application: Flask calls the view of
    [POST /clarify] on the datum of a JSON body, and turns what the view
    returns into a response whose body is the JSON text of [jsonify]; any
    other request, and a view that raises, give an error page, which is
    not JSON ([not_json] is the error [response.json()] then rejects
    with). The state of the network is the world of the application. *)
Definition flask (py_repr : pyval -> pystr) (client : OpenAI) (svc : service)
    (not_json : Page.js_error)
    (url : pystr) (init : Page.fetch_init) (w : world) : Page.fetch_outcome * world :=
  if bool_decide (url = lit "/clarify") &&
     bool_decide (Page.method init = lit "POST") &&
     bool_decide (dict_lookup (lit "Content-Type") (Page.headers init) =
                  Some (lit "application/json"))
  then
    match run svc (clarify py_repr client (Page.body init)) w with
    | (inr resp, w') =>
        (inr {| Page.ok := (200 <=? status resp) && (status resp <=? 299);
                Page.json := inr (json resp) |}, w')
    | (inl e, w') =>
        (inr {| Page.ok := false; Page.json := inl not_json |}, w')
    end
  else (inr {| Page.ok := false; Page.json := inl not_json |}, w).



Module PageSamples.

Definition js_repr0 : pyval -> pystr := fun _ => lit "?".
Definition null_error0 : pystr -> Page.js_error :=
  fun prop => {| Page.name := lit "TypeError"; Page.message := lit "null has no properties" |}.
Definition not_json0 : Page.js_error :=
  {| Page.name := lit "SyntaxError"; Page.message := lit "Unexpected token" |}.

(** The page as it is loaded, with the two inputs filled in. *)
Definition filled (concept context : pystr) : Page.dom :=
  {| Page.conceptInput_value := concept;
     Page.contextInput_value := context;
     Page.responseText_textContent := lit "Your explanations will appear here.";
     Page.loadingIndicator_style_display := lit "";
     Page.submitButton_disabled := false;
     Page.console := [] |}.

(** A server that answers every request with the 400 response of the
    view. *)
Definition bad_request
  : list (pystr * Page.fetch_init) -> pystr -> Page.fetch_init -> Page.fetch_outcome :=
  fun _ _ _ =>
    inr {| Page.ok := false;
           Page.json := inr (PDict [(lit "error", PStr (lit "Concept query is required."))]) |}.

End PageSamples.

(** ** Vocabulary of the statements *)

(** The call failed with [e]: the service raised [e], or it returned a
    payload the code cannot read (no choice, or a choice without text)
    and reading it raised [e]. *)
Inductive upstream_failure : outcome -> Exception -> Prop :=
| service_raised (e : Exception) :
    upstream_failure (inl e) e
| no_choice (r : ChatCompletion) :
    choices r = [] ->
    upstream_failure (inr r) IndexError
| no_content (r : ChatCompletion) (ch : Choice) (rest : list Choice) :
    choices r = ch :: rest ->
    content (message ch) = None ->
    upstream_failure (inr r) (AttributeError PNone (lit "strip")).

(** The call succeeded and the generated text is [text]. *)
Inductive generated : outcome -> pystr -> Prop :=
| first_choice (r : ChatCompletion) (ch : Choice) (rest : list Choice) (text : pystr) :
    choices r = ch :: rest ->
    content (message ch) = Some text ->
    generated (inr r) text.

(** The keyword arguments of a call whose user message is
    [user_instruction]. *)
Definition completion_call (user_instruction : pystr) : create_kwargs :=
  {| model := lit "gpt-3.5-turbo";
     messages :=
       [ [(lit "role", lit "system"); (lit "content", system_prompt)];
         [(lit "role", lit "user"); (lit "content", user_instruction)] ];
     temperature := 0.7%Q;
     max_tokens := 300 |}.

(** The call [clarify_concept] makes for a query and a context. *)
Definition call_of (py_repr : pyval -> pystr) (client : OpenAI) (q c : pyval)
  : OpenAI * create_kwargs :=
  (client, completion_call (user_message py_repr q c)).

(** What the service answers to that call when it is made in world [w]. *)
Definition answer (py_repr : pyval -> pystr) (client : OpenAI) (svc : service)
    (q c : pyval) (w : world) : outcome :=
  svc (calls w) client (completion_call (user_message py_repr q c)).

(** The line the [except] branch prints. *)
Definition log_line (e : Exception) : pystr :=
  lit "Error calling OpenAI API: " ++ exc_str e.

(** The value line 77 binds to [subject_context] for a [dict] body. *)
Definition context_of (d : list (pystr * pyval)) : pyval :=
  default (PStr (lit "")) (dict_lookup (lit "context") d).

Definition is_dict (v : pyval) : bool :=
  match v with PDict _ => true | _ => false end.

(** The two responses with a fixed or near-fixed body. *)
Definition error_response : response :=
  {| json := PDict [(lit "error", PStr (lit "Concept query is required."))];
     status := 400 |}.

Definition explanation_response (explanation : pystr) : response :=
  {| json := PDict [(lit "explanation", PStr explanation)]; status := 200 |}.

(** ** Sample inputs *)

Module Samples.

Definition repr0 : pyval -> pystr := fun _ => lit "?".
Definition client0 : OpenAI := {| api_key := lit "sk-test" |}.
Definition world0 : world := {| calls := []; stdout := [] |}.

Definition reply (text : option pystr) : ChatCompletion :=
  {| choices := [ {| message := {| content := text |} |} ] |}.

(** A service that answers every call with the same text. *)
Definition says (text : pystr) : service := fun _ _ _ => inr (reply (Some text)).

(** A service that is down. *)
Definition connection_error : Exception :=
  mkException (lit "APIConnectionError") (lit "Connection error.").
Definition down : service := fun _ _ _ => inl connection_error.

Definition mutex : list (pystr * pyval) :=
  [(lit "query", PStr (lit "Mutex")); (lit "context", PStr (lit "Operating Systems"))].
Definition polymorphism : list (pystr * pyval) :=
  [(lit "query", PStr (lit "Polymorphism"))].
Definition polymorphism_empty_context : list (pystr * pyval) :=
  [(lit "query", PStr (lit "Polymorphism")); (lit "context", PStr (lit ""))].
Definition empty_query : list (pystr * pyval) :=
  [(lit "query", PStr (lit ""))].
Definition zero_query : list (pystr * pyval) :=
  [(lit "query", PInt 0)].

Definition with_key : gmap (list N) (list N) :=
  {[ lit "OPENAI_API_KEY" := lit "sk-test" ]}.

End Samples.

(** * Properties *)

(** ** [str.strip] *)

Module PyStrFacts.
Import PyStr.

Lemma blank_app (s t : pystr) : blank (s ++ t) = blank s && blank t.
Proof. apply forallb_app. Qed.

Lemma blank_rev (s : pystr) : blank (rev s) = blank s.
Proof.
  induction s as [|c s IH]; [reflexivity|].
  simpl. rewrite blank_app, IH. simpl. rewrite andb_true_r. apply andb_comm.
Qed.

Lemma lstrip_split (s : pystr) :
  exists l, s = l ++ lstrip s /\ blank l = true.
Proof.
  induction s as [|c s [l [Hs Hl]]].
  - exists []. split; reflexivity.
  - simpl. destruct (isspace c) eqn:Hc.
    + exists (c :: l). split; [simpl; congruence|]. simpl. rewrite Hc. exact Hl.
    + exists []. split; reflexivity.
Qed.

Lemma lstrip_head (s : pystr) (c : N) :
  head (lstrip s) = Some c -> isspace c = false.
Proof.
  induction s as [|a s IH]; simpl; [discriminate|].
  destruct (isspace a) eqn:Ha; [exact IH|].
  simpl. intros [= <-]. exact Ha.
Qed.

Lemma lstrip_nil_iff (s : pystr) : lstrip s = [] <-> blank s = true.
Proof.
  induction s as [|a s IH]; simpl; [tauto|].
  destruct (isspace a); simpl; [exact IH|].
  split; discriminate.
Qed.

Lemma rstrip_split (s : pystr) :
  exists r, s = rstrip s ++ r /\ blank r = true.
Proof.
  destruct (lstrip_split (rev s)) as [l [Hs Hl]].
  exists (rev l). split.
  - unfold rstrip. rewrite <- rev_app_distr, <- Hs. symmetry. apply rev_involutive.
  - rewrite blank_rev. exact Hl.
Qed.

Lemma rstrip_last (s : pystr) (c : N) :
  last (rstrip s) = Some c -> isspace c = false.
Proof.
  unfold rstrip. intros H. apply (lstrip_head (rev s)).
  destruct (lstrip (rev s)) as [|a t]; [discriminate|].
  simpl in H. rewrite last_snoc in H. exact H.
Qed.

Lemma rstrip_nil_iff (s : pystr) : rstrip s = [] <-> blank s = true.
Proof.
  unfold rstrip. rewrite <- (blank_rev s), <- lstrip_nil_iff.
  split; intros H.
  - apply (f_equal (@rev N)) in H. rewrite rev_involutive in H. exact H.
  - rewrite H. reflexivity.
Qed.

(** [rstrip] keeps the first character of what it leaves. *)
Lemma rstrip_head (s : pystr) (c : N) :
  head (rstrip s) = Some c -> head s = Some c.
Proof.
  destruct (rstrip_split s) as [r [Hs _]].
  intros H. rewrite Hs. destruct (rstrip s); [discriminate|exact H].
Qed.

(** What [strip] removes is whitespace at both ends, and nothing else. *)
Lemma strip_split (s : pystr) :
  exists l r, s = l ++ strip s ++ r /\ blank l = true /\ blank r = true.
Proof.
  destruct (lstrip_split s) as [l [Hs Hl]].
  destruct (rstrip_split (lstrip s)) as [r [Ht Hr]].
  exists l, r. unfold strip. rewrite <- Ht. auto.
Qed.

Lemma strip_head (s : pystr) (c : N) :
  head (strip s) = Some c -> isspace c = false.
Proof. intros H. apply rstrip_head in H. exact (lstrip_head _ _ H). Qed.

Lemma strip_last (s : pystr) (c : N) :
  last (strip s) = Some c -> isspace c = false.
Proof. apply rstrip_last. Qed.

(** [strip] gives the empty string on whitespace, and only there. *)
Lemma strip_nil_iff (s : pystr) : strip s = [] <-> blank s = true.
Proof.
  unfold strip. rewrite rstrip_nil_iff.
  destruct (lstrip_split s) as [l [Hs Hl]].
  rewrite Hs at 2. rewrite blank_app, Hl. reflexivity.
Qed.

End PyStrFacts.

(** ** Running composed programs *)

Section RunFacts.

Context {A : Type} (svc : service).

Lemma run_bind {B : Type} (p : io A) (f : A -> io B) (w : world) :
  run svc (bind p f) w =
  match run svc p w with
  | (inr a, w') => run svc (f a) w'
  | (inl e, w') => (inl e, w')
  end.
Proof.
  revert w. induction p as [a|e|line k IH|c kw k IH]; intros w; simpl.
  - reflexivity.
  - reflexivity.
  - apply IH.
  - apply IH.
Qed.

Lemma run_try_except (p : io A) (h : Exception -> io A) (w : world) :
  run svc (try_except p h) w =
  match run svc p w with
  | (inr a, w') => (inr a, w')
  | (inl e, w') => run svc (h e) w'
  end.
Proof.
  revert w. induction p as [a|e|line k IH|c kw k IH]; intros w; simpl.
  - reflexivity.
  - reflexivity.
  - apply IH.
  - apply IH.
Qed.

(** A run never forgets a call or a log line. *)
Lemma run_extends (p : io A) (w : world) :
  exists new out,
    calls (run svc p w).2 = calls w ++ new /\
    stdout (run svc p w).2 = stdout w ++ out.
Proof.
  revert w. induction p as [a|e|line k IH|c kw k IH]; intros w; simpl.
  - exists [], []. rewrite !app_nil_r. auto.
  - exists [], []. rewrite !app_nil_r. auto.
  - destruct (IH {| calls := calls w; stdout := stdout w ++ [line] |})
      as (new & out & Hc & Ho).
    exists new, (line :: out). rewrite Hc, Ho. simpl.
    rewrite <- app_assoc. auto.
  - destruct (IH (svc (calls w) c kw)
                {| calls := calls w ++ [(c, kw)]; stdout := stdout w |})
      as (new & out & Hc & Ho).
    exists ((c, kw) :: new), out. rewrite Hc, Ho. simpl.
    rewrite <- app_assoc. auto.
Qed.

End RunFacts.

(** ** What the service answered *)

Lemma outcome_cases (o : outcome) :
  (exists e, upstream_failure o e) \/ (exists text, generated o text).
Proof.
  destruct o as [e|[chs]].
  - left. exists e. constructor.
  - destruct chs as [|ch rest].
    + left. eexists. apply no_choice. reflexivity.
    + destruct (content (message ch)) as [text|] eqn:Hc.
      * right. exists text. eapply first_choice; [reflexivity|exact Hc].
      * left. eexists. eapply no_content; [reflexivity|exact Hc].
Qed.

Lemma failure_not_generated (o : outcome) (e : Exception) (text : pystr) :
  upstream_failure o e -> generated o text -> False.
Proof.
  intros Hf Hg. destruct Hg as [r ch rest text Hch Hc].
  inversion Hf as [|r' Hnil|r' ch' rest' Hch' Hc']; subst; congruence.
Qed.

Lemma generated_functional (o : outcome) (s t : pystr) :
  generated o s -> generated o t -> s = t.
Proof.
  intros Hs Ht. destruct Hs as [r ch rest s Hch Hc].
  inversion Ht as [r' ch' rest' t' Hch' Hc']; subst. congruence.
Qed.

Lemma fallback_nonempty : fallback <> [].
Proof. discriminate. Qed.

(** ** The core function *)

Section Core.

Variable py_repr : pyval -> pystr.
Variable client : OpenAI.
Variable svc : service.

Lemma run_clarify_concept_failure (q c : pyval) (w : world) (e : Exception) :
  upstream_failure (answer py_repr client svc q c w) e ->
  run svc (clarify_concept py_repr client q c) w =
  (inr fallback,
   {| calls := calls w ++ [call_of py_repr client q c];
      stdout := stdout w ++ [log_line e] |}).
Proof.
  unfold answer, call_of, clarify_concept. intros H.
  rewrite run_try_except, run_bind. simpl.
  fold (completion_call (user_message py_repr q c)).
  inversion H as [e' Ho|r Hnil Ho|r ch rest Hch Hc Ho]; subst; simpl.
  - reflexivity.
  - unfold getitem. rewrite Hnil. reflexivity.
  - unfold getitem. rewrite Hch. simpl. rewrite Hc. reflexivity.
Qed.

Lemma run_clarify_concept_success (q c : pyval) (w : world) (text : pystr) :
  generated (answer py_repr client svc q c w) text ->
  run svc (clarify_concept py_repr client q c) w =
  (inr (PyStr.strip text),
   {| calls := calls w ++ [call_of py_repr client q c]; stdout := stdout w |}).
Proof.
  unfold answer, call_of, clarify_concept. intros H.
  rewrite run_try_except, run_bind. simpl.
  fold (completion_call (user_message py_repr q c)).
  inversion H as [r ch rest t Hch Hc Ho]; subst; simpl.
  unfold getitem. rewrite Hch. simpl. rewrite Hc. reflexivity.
Qed.

(** Whatever the service answers, [clarify_concept] returns a string
    after exactly one call. *)
Lemma run_clarify_concept_total (q c : pyval) (w : world) :
  exists explanation out,
    run svc (clarify_concept py_repr client q c) w =
    (inr explanation,
     {| calls := calls w ++ [call_of py_repr client q c];
        stdout := stdout w ++ out |}).
Proof.
  destruct (outcome_cases (answer py_repr client svc q c w)) as [[e H]|[text H]].
  - exists fallback, [log_line e]. apply run_clarify_concept_failure, H.
  - exists (PyStr.strip text), [].
    rewrite app_nil_r. apply run_clarify_concept_success, H.
Qed.

(** ** The view *)

(** A body that is not a [dict] has no [get]. *)
Lemma run_clarify_not_dict (data : pyval) (w : world) :
  is_dict data = false ->
  run svc (clarify py_repr client data) w =
  (inl (AttributeError data (lit "get")), w).
Proof. destruct data; simpl; intros H; try reflexivity; discriminate. Qed.

(** The validation fails: the answer is the 400 response at once. *)
Lemma run_clarify_falsy (d : list (pystr * pyval)) (w : world) :
  truthy (default PNone (dict_lookup (lit "query") d)) = false ->
  run svc (clarify py_repr client (PDict d)) w = (inr error_response, w).
Proof. intros H. unfold clarify. simpl. rewrite H. reflexivity. Qed.

(** The validation passes: the view wraps what the core returns. *)
Lemma run_clarify_truthy (d : list (pystr * pyval)) (q : pyval) (w : world) :
  dict_lookup (lit "query") d = Some q ->
  truthy q = true ->
  run svc (clarify py_repr client (PDict d)) w =
  match run svc (clarify_concept py_repr client q (context_of d)) w with
  | (inr explanation, w') => (inr (explanation_response explanation), w')
  | (inl e, w') => (inl e, w')
  end.
Proof.
  intros Hq Ht. unfold clarify. simpl get_method. cbn [bind].
  rewrite Hq. simpl default. rewrite Ht. cbn [negb].
  rewrite run_bind. reflexivity.
Qed.

Lemma nonempty_truthy (q : pystr) : q <> [] -> truthy (PStr q) = true.
Proof. destruct q; [congruence|reflexivity]. Qed.

End Core.

(** * The claims *)

(** C1, as stated, fails: the service may answer with a text of
    whitespace only, and [strip] then leaves the empty string. Here the
    body is [{"query": "Polymorphism"}] and the service answers three
    spaces: the response is 200 with [explanation] equal to [""]. *)
Lemma clarify_blank_text_counterexample :
  (run (fun _ _ _ =>
          inr {| choices := [ {| message := {| content := Some (lit "   ") |} |} ] |})
       (clarify (fun _ => lit "?") {| api_key := lit "sk-test" |}
          (PDict [(lit "query", PStr (lit "Polymorphism"))]))
       {| calls := []; stdout := [] |}).1
  = inr {| json := PDict [(lit "explanation", PStr (lit ""))]; status := 200 |}.
Proof. vm_compute. reflexivity. Qed.

(** C1 (amended): for a [dict] body whose [query] is a non-empty string,
    the view makes exactly one call to the completion service and returns
    a 200 response whose body is [{"explanation": s}] for a string [s];
    [s] is empty exactly when the call succeeded with a generated text of
    whitespace only (or empty), and is non-empty otherwise. *)
Theorem clarify_valid_query
    (py_repr : pyval -> pystr) (client : OpenAI) (svc : service) (w : world)
    (d : list (pystr * pyval)) (q : pystr) :
  dict_lookup (lit "query") d = Some (PStr q) ->
  q <> [] ->
  exists explanation out,
    run svc (clarify py_repr client (PDict d)) w =
      (inr {| json := PDict [(lit "explanation", PStr explanation)]; status := 200 |},
       {| calls := calls w ++ [call_of py_repr client (PStr q) (context_of d)];
          stdout := stdout w ++ out |}) /\
    (explanation = [] <->
     exists text,
       generated (answer py_repr client svc (PStr q) (context_of d) w) text /\
       PyStr.blank text = true).
Proof.
  intros Hq Hne.
  rewrite (run_clarify_truthy _ _ _ _ _ _ Hq (nonempty_truthy _ Hne)).
  destruct (outcome_cases (answer py_repr client svc (PStr q) (context_of d) w))
    as [[e H]|[text H]].
  - rewrite (run_clarify_concept_failure _ _ _ _ _ _ _ H).
    exists fallback, [log_line e]. split; [reflexivity|]. split.
    + intros Hnil. destruct (fallback_nonempty Hnil).
    + intros (text & Hg & _). destruct (failure_not_generated _ _ _ H Hg).
  - rewrite (run_clarify_concept_success _ _ _ _ _ _ _ H).
    exists (PyStr.strip text), []. rewrite app_nil_r. split; [reflexivity|]. split.
    + intros Hnil. exists text. split; [exact H|].
      apply PyStrFacts.strip_nil_iff, Hnil.
    + intros (text' & Hg & Hb). rewrite (generated_functional _ _ _ H Hg).
      apply PyStrFacts.strip_nil_iff, Hb.
Qed.

Lemma clarify_valid_query_witness :
  exists explanation out,
    run (Samples.says (lit " A lock. "))
        (clarify Samples.repr0 Samples.client0 (PDict Samples.mutex)) Samples.world0 =
      (inr {| json := PDict [(lit "explanation", PStr explanation)]; status := 200 |},
       {| calls := calls Samples.world0 ++
                   [call_of Samples.repr0 Samples.client0 (PStr (lit "Mutex"))
                      (context_of Samples.mutex)];
          stdout := stdout Samples.world0 ++ out |}) /\
    (explanation = [] <->
     exists text,
       generated (answer Samples.repr0 Samples.client0 (Samples.says (lit " A lock. "))
                    (PStr (lit "Mutex")) (context_of Samples.mutex) Samples.world0) text /\
       PyStr.blank text = true).
Proof.
  apply (clarify_valid_query Samples.repr0 Samples.client0 (Samples.says (lit " A lock. "))
           Samples.world0 Samples.mutex (lit "Mutex")).
  - reflexivity.
  - discriminate.
Defined.

(** C2: for a [dict] body whose [query] is missing or is the empty
    string, the view returns status 400 with the body
    [{"error": "Concept query is required."}], and the world is left as
    it was: no call to the completion service (and no log line). *)
Theorem clarify_missing_or_empty_query
    (py_repr : pyval -> pystr) (client : OpenAI) (svc : service) (w : world)
    (d : list (pystr * pyval)) :
  dict_lookup (lit "query") d = None \/
  dict_lookup (lit "query") d = Some (PStr (lit "")) ->
  run svc (clarify py_repr client (PDict d)) w =
    (inr {| json := PDict [(lit "error", PStr (lit "Concept query is required."))];
            status := 400 |},
     w).
Proof.
  intros H. apply run_clarify_falsy. destruct H as [-> | ->]; reflexivity.
Qed.

Lemma clarify_missing_or_empty_query_witness :
  run Samples.down (clarify Samples.repr0 Samples.client0 (PDict Samples.empty_query))
      Samples.world0 =
    (inr {| json := PDict [(lit "error", PStr (lit "Concept query is required."))];
            status := 400 |},
     Samples.world0).
Proof.
  apply (clarify_missing_or_empty_query Samples.repr0 Samples.client0 Samples.down
           Samples.world0 Samples.empty_query).
  right. reflexivity.
Defined.

(** C3: for a [dict] body whose [query] is a non-empty string, when the
    call to the completion service fails with [e] (the service raises
    [e], or it returns a payload without choice or without text), the
    view still returns status 200 with [explanation] equal to the fixed
    apology, one line that reports [e] is added to the server log, and
    the exception does not leave the view. *)
Theorem clarify_upstream_failure
    (py_repr : pyval -> pystr) (client : OpenAI) (svc : service) (w : world)
    (d : list (pystr * pyval)) (q : pystr) (e : Exception) :
  dict_lookup (lit "query") d = Some (PStr q) ->
  q <> [] ->
  upstream_failure (answer py_repr client svc (PStr q) (context_of d) w) e ->
  run svc (clarify py_repr client (PDict d)) w =
    (inr {| json :=
              PDict [(lit "explanation",
                      PStr (lit "I apologize, but I couldn't generate an explanation at this moment. Please try again later."))];
            status := 200 |},
     {| calls := calls w ++ [call_of py_repr client (PStr q) (context_of d)];
        stdout := stdout w ++ [lit "Error calling OpenAI API: " ++ exc_str e] |}).
Proof.
  intros Hq Hne H.
  rewrite (run_clarify_truthy _ _ _ _ _ _ Hq (nonempty_truthy _ Hne)).
  rewrite (run_clarify_concept_failure _ _ _ _ _ _ _ H). reflexivity.
Qed.

Lemma clarify_upstream_failure_witness :
  run Samples.down (clarify Samples.repr0 Samples.client0 (PDict Samples.mutex))
      Samples.world0 =
    (inr {| json :=
              PDict [(lit "explanation",
                      PStr (lit "I apologize, but I couldn't generate an explanation at this moment. Please try again later."))];
            status := 200 |},
     {| calls := calls Samples.world0 ++
                 [call_of Samples.repr0 Samples.client0 (PStr (lit "Mutex"))
                    (context_of Samples.mutex)];
        stdout := stdout Samples.world0 ++
                  [lit "Error calling OpenAI API: " ++ exc_str Samples.connection_error] |}).
Proof.
  apply (clarify_upstream_failure Samples.repr0 Samples.client0 Samples.down
           Samples.world0 Samples.mutex (lit "Mutex") Samples.connection_error).
  - reflexivity.
  - discriminate.
  - exact (service_raised Samples.connection_error).
Defined.

(** The calls after a run of the view on a valid body: one more, the one
    composed from the query and the context. *)
Lemma clarify_valid_calls
    (py_repr : pyval -> pystr) (client : OpenAI) (svc : service) (w : world)
    (d : list (pystr * pyval)) (q : pyval) :
  dict_lookup (lit "query") d = Some q ->
  truthy q = true ->
  calls (run svc (clarify py_repr client (PDict d)) w).2 =
  calls w ++ [call_of py_repr client q (context_of d)].
Proof.
  intros Hq Ht. rewrite (run_clarify_truthy _ _ _ _ _ _ Hq Ht).
  destruct (run_clarify_concept_total py_repr client svc q (context_of d) w)
    as (explanation & out & ->).
  reflexivity.
Qed.

(** C4: for a [dict] body whose [query] is a non-empty string, the user
    message of the call is the query instruction followed by the context
    clause, which quotes the context string as it is, when [context] is a
    non-empty string; it is the query instruction alone, with nothing
    appended, when [context] is missing or is the empty string. *)
Theorem clarify_user_instruction
    (py_repr : pyval -> pystr) (client : OpenAI) (svc : service) (w : world)
    (d : list (pystr * pyval)) (q : pystr) :
  dict_lookup (lit "query") d = Some (PStr q) ->
  q <> [] ->
  exists instruction,
    calls (run svc (clarify py_repr client (PDict d)) w).2 =
      calls w ++ [(client, completion_call instruction)] /\
    (forall ctx,
       dict_lookup (lit "context") d = Some (PStr ctx) -> ctx <> [] ->
       instruction =
         (lit "Explain the concept: '" ++ q ++ lit "'.") ++
         (lit " Please explain it in the context of '" ++ ctx ++ lit "'.")) /\
    (dict_lookup (lit "context") d = None \/
     dict_lookup (lit "context") d = Some (PStr (lit "")) ->
       instruction = lit "Explain the concept: '" ++ q ++ lit "'.").
Proof.
  intros Hq Hne.
  exists (user_message py_repr (PStr q) (context_of d)). split; [|split].
  - apply (clarify_valid_calls _ _ _ _ _ _ Hq (nonempty_truthy _ Hne)).
  - intros ctx Hc Hctx. unfold context_of. rewrite Hc. simpl default.
    unfold user_message. rewrite (nonempty_truthy _ Hctx). reflexivity.
  - intros [Hc|Hc]; unfold context_of; rewrite Hc; reflexivity.
Qed.

Lemma clarify_user_instruction_witness :
  calls (run Samples.down (clarify Samples.repr0 Samples.client0 (PDict Samples.mutex))
           Samples.world0).2 =
    [(Samples.client0,
      completion_call
        (lit "Explain the concept: 'Mutex'. Please explain it in the context of 'Operating Systems'."))]
  /\
  calls (run Samples.down (clarify Samples.repr0 Samples.client0 (PDict Samples.polymorphism))
           Samples.world0).2 =
    [(Samples.client0, completion_call (lit "Explain the concept: 'Polymorphism'."))].
Proof.
  split.
  - destruct (clarify_user_instruction Samples.repr0 Samples.client0 Samples.down
                Samples.world0 Samples.mutex (lit "Mutex"))
      as (instruction & Hcalls & Hwith & _).
    + reflexivity.
    + discriminate.
    + rewrite Hcalls, (Hwith (lit "Operating Systems")).
      * reflexivity.
      * reflexivity.
      * discriminate.
  - destruct (clarify_user_instruction Samples.repr0 Samples.client0 Samples.down
                Samples.world0 Samples.polymorphism (lit "Polymorphism"))
      as (instruction & Hcalls & _ & Hwithout).
    + reflexivity.
    + discriminate.
    + rewrite Hcalls, Hwithout.
      * reflexivity.
      * left. reflexivity.
Defined.

(** C5: for a [dict] body whose [query] is a non-empty string, when the
    call succeeds with the generated text [text], the [explanation] of
    the 200 response is [text.strip()]: [text] is that string between two
    runs of whitespace, and that string neither starts nor ends with a
    whitespace character. *)
Theorem clarify_explanation_stripped
    (py_repr : pyval -> pystr) (client : OpenAI) (svc : service) (w : world)
    (d : list (pystr * pyval)) (q text : pystr) :
  dict_lookup (lit "query") d = Some (PStr q) ->
  q <> [] ->
  generated (answer py_repr client svc (PStr q) (context_of d) w) text ->
  exists explanation w',
    run svc (clarify py_repr client (PDict d)) w =
      (inr {| json := PDict [(lit "explanation", PStr explanation)]; status := 200 |}, w') /\
    explanation = PyStr.strip text /\
    (exists l r, text = l ++ explanation ++ r /\
                 PyStr.blank l = true /\ PyStr.blank r = true) /\
    (forall c, head explanation = Some c -> PyStr.isspace c = false) /\
    (forall c, last explanation = Some c -> PyStr.isspace c = false).
Proof.
  intros Hq Hne H.
  rewrite (run_clarify_truthy _ _ _ _ _ _ Hq (nonempty_truthy _ Hne)).
  rewrite (run_clarify_concept_success _ _ _ _ _ _ _ H).
  eexists _, _. split; [reflexivity|]. split; [reflexivity|]. split; [|split].
  - apply PyStrFacts.strip_split.
  - apply PyStrFacts.strip_head.
  - apply PyStrFacts.strip_last.
Qed.

Lemma clarify_explanation_stripped_witness :
  exists explanation w',
    run (Samples.says (lit " A lock. "))
        (clarify Samples.repr0 Samples.client0 (PDict Samples.mutex)) Samples.world0 =
      (inr {| json := PDict [(lit "explanation", PStr explanation)]; status := 200 |}, w') /\
    explanation = PyStr.strip (lit " A lock. ") /\
    (exists l r, lit " A lock. " = l ++ explanation ++ r /\
                 PyStr.blank l = true /\ PyStr.blank r = true) /\
    (forall c, head explanation = Some c -> PyStr.isspace c = false) /\
    (forall c, last explanation = Some c -> PyStr.isspace c = false).
Proof.
  apply (clarify_explanation_stripped Samples.repr0 Samples.client0
           (Samples.says (lit " A lock. ")) Samples.world0 Samples.mutex (lit "Mutex")).
  - reflexivity.
  - discriminate.
  - exact (first_choice (Samples.reply (Some (lit " A lock. "))) _ [] _ eq_refl eq_refl).
Defined.

(** C6: for every [dict] body, whatever the service does, the view
    returns a response whose JSON body is an object with exactly one of
    the keys [explanation] and [error]. *)
Theorem clarify_explanation_xor_error
    (py_repr : pyval -> pystr) (client : OpenAI) (svc : service) (w : world)
    (d : list (pystr * pyval)) :
  exists resp w' body,
    run svc (clarify py_repr client (PDict d)) w = (inr resp, w') /\
    json resp = PDict body /\
    ((is_Some (dict_lookup (lit "explanation") body) /\
      dict_lookup (lit "error") body = None) \/
     (dict_lookup (lit "explanation") body = None /\
      is_Some (dict_lookup (lit "error") body))).
Proof.
  destruct (truthy (default PNone (dict_lookup (lit "query") d))) eqn:Ht.
  - destruct (dict_lookup (lit "query") d) as [q|] eqn:Hq; [|discriminate].
    rewrite (run_clarify_truthy _ _ _ _ _ _ Hq Ht).
    destruct (run_clarify_concept_total py_repr client svc q (context_of d) w)
      as (explanation & out & ->).
    eexists _, _, _. split; [reflexivity|]. split; [reflexivity|].
    left. split; [eexists|]; reflexivity.
  - rewrite (run_clarify_falsy _ _ _ _ _ Ht).
    eexists _, _, _. split; [reflexivity|]. split; [reflexivity|].
    right. split; [|eexists]; reflexivity.
Qed.

(** ** Start-up *)

Lemma read_credential_serving (environ : gmap (list N) (list N)) (client : OpenAI) :
  read_credential environ = Serving client ->
  environ !! lit "OPENAI_API_KEY" = Some (api_key client) /\ api_key client <> [].
Proof.
  unfold read_credential.
  destruct (environ !! lit "OPENAI_API_KEY") as [key|]; [|discriminate].
  destruct key as [|c key]; simpl; [discriminate|].
  intros [= <-]. split; [reflexivity|discriminate].
Qed.

(** C7: when [OPENAI_API_KEY] is not in the process environment as the
    module reads it at start-up (that is once [load_dotenv()] has run),
    loading the module ends in a [ValueError] whose message names the
    variable and says how to set it, and the process serves no request;
    a request is served only when the variable was there (and not empty),
    by the view that uses this credential. *)
Theorem startup_needs_credential
    (dotenv os_environ : gmap (list N) (list N))
    (py_repr : pyval -> pystr) (data : pyval) :
  (load_dotenv dotenv os_environ !! lit "OPENAI_API_KEY" = None ->
   startup dotenv os_environ =
     Aborted (ValueError (lit "OPENAI_API_KEY environment variable not set. Please create a .env file in the same directory as app.py and add OPENAI_API_KEY=YOUR_API_KEY_HERE to it.")) /\
   serve py_repr (startup dotenv os_environ) data = None) /\
  (forall p,
     serve py_repr (startup dotenv os_environ) data = Some p ->
     exists key,
       load_dotenv dotenv os_environ !! lit "OPENAI_API_KEY" = Some key /\
       key <> [] /\
       p = clarify py_repr {| api_key := key |} data).
Proof.
  unfold startup. split.
  - intros H. unfold read_credential. rewrite H. split; reflexivity.
  - intros p.
    destruct (read_credential (load_dotenv dotenv os_environ)) as [e|client] eqn:Hs;
      simpl; [discriminate|].
    intros [= <-]. destruct (read_credential_serving _ _ Hs) as [Hk Hne].
    exists (api_key client). destruct client as [key]. auto.
Qed.

Lemma startup_needs_credential_witness :
  (startup ∅ ∅ =
     Aborted (ValueError (lit "OPENAI_API_KEY environment variable not set. Please create a .env file in the same directory as app.py and add OPENAI_API_KEY=YOUR_API_KEY_HERE to it.")) /\
   serve Samples.repr0 (startup ∅ ∅) (PDict Samples.mutex) = None) /\
  (exists key,
     load_dotenv ∅ Samples.with_key !! lit "OPENAI_API_KEY" = Some key /\
     key <> [] /\
     clarify Samples.repr0 Samples.client0 (PDict Samples.mutex) =
     clarify Samples.repr0 {| api_key := key |} (PDict Samples.mutex)).
Proof.
  split.
  - apply (startup_needs_credential ∅ ∅ Samples.repr0 (PDict Samples.mutex)).
    reflexivity.
  - apply (startup_needs_credential ∅ Samples.with_key Samples.repr0 (PDict Samples.mutex)).
    reflexivity.
Defined.

(** ** The parameters of the call *)

(** C8: whatever the body and whatever the service does, every call a
    run of the view adds is made with the module's client and with: the
    model "gpt-3.5-turbo", a list of two messages (role "system" with the
    fixed system instruction, then role "user" with the composed user
    instruction), temperature 0.7 and [max_tokens] 300. The same holds of
    the one call [clarify_concept] makes, for all arguments. *)
Theorem every_call_fixed_parameters
    (py_repr : pyval -> pystr) (client : OpenAI) (svc : service) (w : world) :
  (forall data,
     exists new,
       calls (run svc (clarify py_repr client data) w).2 = calls w ++ new /\
       Forall (fun call =>
                 exists user_instruction,
                   call =
                   (client,
                    {| model := lit "gpt-3.5-turbo";
                       messages :=
                         [ [(lit "role", lit "system"); (lit "content", system_prompt)];
                           [(lit "role", lit "user"); (lit "content", user_instruction)] ];
                       temperature := 0.7%Q;
                       max_tokens := 300 |})) new) /\
  (forall concept_query subject_context,
     calls (run svc (clarify_concept py_repr client concept_query subject_context) w).2 =
     calls w ++
     [(client,
       {| model := lit "gpt-3.5-turbo";
          messages :=
            [ [(lit "role", lit "system"); (lit "content", system_prompt)];
              [(lit "role", lit "user");
               (lit "content", user_message py_repr concept_query subject_context)] ];
          temperature := 0.7%Q;
          max_tokens := 300 |})]).
Proof.
  split.
  - intros data. destruct (is_dict data) eqn:Hd.
    + destruct data as [| | | | | |d]; try discriminate.
      destruct (truthy (default PNone (dict_lookup (lit "query") d))) eqn:Ht.
      * destruct (dict_lookup (lit "query") d) as [q|] eqn:Hq; [|discriminate].
        exists [call_of py_repr client q (context_of d)]. split.
        -- apply (clarify_valid_calls _ _ _ _ _ _ Hq Ht).
        -- constructor; [|constructor]. eexists. reflexivity.
      * rewrite (run_clarify_falsy _ _ _ _ _ Ht).
        exists []. rewrite app_nil_r. split; [reflexivity|constructor].
    + rewrite (run_clarify_not_dict _ _ _ _ _ Hd).
      exists []. rewrite app_nil_r. split; [reflexivity|constructor].
  - intros q c.
    destruct (run_clarify_concept_total py_repr client svc q c w)
      as (explanation & out & ->).
    reflexivity.
Qed.

(** ** Context left out, context empty *)

(** C9: two [dict] bodies with the same [query], one without [context]
    and one whose [context] is the empty string, give the same program:
    the same user instruction (the query instruction, no context clause),
    hence the same call and, for every service and starting world, the
    same response and final world. *)
Theorem absent_context_same_as_empty
    (py_repr : pyval -> pystr) (client : OpenAI) (d1 d2 : list (pystr * pyval)) :
  dict_lookup (lit "query") d1 = dict_lookup (lit "query") d2 ->
  dict_lookup (lit "context") d1 = None ->
  dict_lookup (lit "context") d2 = Some (PStr (lit "")) ->
  clarify py_repr client (PDict d1) = clarify py_repr client (PDict d2) /\
  (forall svc w,
     run svc (clarify py_repr client (PDict d1)) w =
     run svc (clarify py_repr client (PDict d2)) w) /\
  (forall q,
     user_message py_repr q (context_of d1) = query_instruction py_repr q /\
     user_message py_repr q (context_of d2) = query_instruction py_repr q).
Proof.
  intros Hq H1 H2.
  assert (Heq : clarify py_repr client (PDict d1) = clarify py_repr client (PDict d2)).
  { unfold clarify. simpl get_method. cbn [bind]. rewrite Hq, H1, H2. reflexivity. }
  split; [exact Heq|]. split.
  - intros svc w. rewrite Heq. reflexivity.
  - intros q. unfold context_of. rewrite H1, H2. split; reflexivity.
Qed.

Lemma absent_context_same_as_empty_witness :
  clarify Samples.repr0 Samples.client0 (PDict Samples.polymorphism) =
  clarify Samples.repr0 Samples.client0 (PDict Samples.polymorphism_empty_context) /\
  (forall svc w,
     run svc (clarify Samples.repr0 Samples.client0 (PDict Samples.polymorphism)) w =
     run svc (clarify Samples.repr0 Samples.client0
                (PDict Samples.polymorphism_empty_context)) w) /\
  (forall q,
     user_message Samples.repr0 q (context_of Samples.polymorphism) =
       query_instruction Samples.repr0 q /\
     user_message Samples.repr0 q (context_of Samples.polymorphism_empty_context) =
       query_instruction Samples.repr0 q).
Proof.
  apply (absent_context_same_as_empty Samples.repr0 Samples.client0
           Samples.polymorphism Samples.polymorphism_empty_context).
  - reflexivity.
  - reflexivity.
  - reflexivity.
Defined.

(** ** Falsy queries, bodies that are not objects *)

(** C10: for a [dict] body, the 400 response (and no call) is what the
    view returns whenever [query] is missing or is any falsy value, such
    as [None], [False], [0] or the empty string; for a body that is not a
    [dict] (such as [None] or a list), the lookup [data.get] raises an
    [AttributeError] that leaves the view, and no response is built. *)
Theorem clarify_falsy_query_and_non_dict
    (py_repr : pyval -> pystr) (client : OpenAI) (svc : service) (w : world) :
  (forall d,
     dict_lookup (lit "query") d = None \/
     (exists v, dict_lookup (lit "query") d = Some v /\ truthy v = false) ->
     run svc (clarify py_repr client (PDict d)) w =
       (inr {| json := PDict [(lit "error", PStr (lit "Concept query is required."))];
               status := 400 |},
        w)) /\
  (truthy PNone = false /\ truthy (PBool false) = false /\
   truthy (PInt 0) = false /\ truthy (PStr (lit "")) = false) /\
  (forall data,
     is_dict data = false ->
     run svc (clarify py_repr client data) w =
       (inl (AttributeError data (lit "get")), w)) /\
  (is_dict PNone = false /\ forall l, is_dict (PList l) = false).
Proof.
  split; [|split; [|split]].
  - intros d H. apply run_clarify_falsy.
    destruct H as [-> | (v & -> & Hv)]; [reflexivity|exact Hv].
  - repeat split.
  - intros data. apply run_clarify_not_dict.
  - split; reflexivity.
Qed.

Lemma clarify_falsy_query_and_non_dict_witness :
  run Samples.down (clarify Samples.repr0 Samples.client0 (PDict Samples.zero_query))
      Samples.world0 =
    (inr {| json := PDict [(lit "error", PStr (lit "Concept query is required."))];
            status := 400 |},
     Samples.world0) /\
  run Samples.down (clarify Samples.repr0 Samples.client0 (PList [])) Samples.world0 =
    (inl (mkException (lit "AttributeError") (lit "'list' object has no attribute 'get'")),
     Samples.world0).
Proof.
  destruct (clarify_falsy_query_and_non_dict Samples.repr0 Samples.client0 Samples.down
              Samples.world0) as (Hfalsy & _ & Hnot & _).
  split.
  - apply Hfalsy. right. exists (PInt 0). split; reflexivity.
  - apply (Hnot (PList [])). reflexivity.
Defined.


(** * Further properties of the relay *)

(** ** [strip] on a text that is already trimmed *)

Lemma last_rev_head (s : pystr) : last (rev s) = head s.
Proof. destruct s as [|c s]; [reflexivity|]. simpl. apply last_snoc. Qed.

Lemma lstrip_id (s : pystr) :
  (forall c, head s = Some c -> PyStr.isspace c = false) -> PyStr.lstrip s = s.
Proof.
  destruct s as [|a s]; [reflexivity|].
  intros H. simpl. rewrite (H a eq_refl). reflexivity.
Qed.

Lemma rstrip_id (s : pystr) :
  (forall c, last s = Some c -> PyStr.isspace c = false) -> PyStr.rstrip s = s.
Proof.
  intros H. unfold PyStr.rstrip. rewrite lstrip_id.
  - apply rev_involutive.
  - intros c Hc. apply H. rewrite <- (rev_involutive s). rewrite last_rev_head. exact Hc.
Qed.

Lemma strip_id (s : pystr) :
  (forall c, head s = Some c -> PyStr.isspace c = false) ->
  (forall c, last s = Some c -> PyStr.isspace c = false) ->
  PyStr.strip s = s.
Proof.
  intros Hh Hl. unfold PyStr.strip. rewrite (lstrip_id _ Hh). apply rstrip_id, Hl.
Qed.

(** ** The core function, for all arguments *)


(** ** Queries that are not strings *)

(** X2: the validation of the view is a truth test, not a type test. A
    [dict] body whose [query] is any truthy value (a number, [True], a
    non-empty list) is served like a string: one call whose user
    instruction interpolates [str(query)], and a 200 response with an
    [explanation]. *)
Theorem clarify_truthy_query_of_any_type
    (py_repr : pyval -> pystr) (client : OpenAI) (svc : service) (w : world)
    (d : list (pystr * pyval)) (q : pyval) :
  dict_lookup (lit "query") d = Some q ->
  truthy q = true ->
  exists explanation out,
    run svc (clarify py_repr client (PDict d)) w =
      (inr {| json := PDict [(lit "explanation", PStr explanation)]; status := 200 |},
       {| calls := calls w ++
                   [(client, completion_call (user_message py_repr q (context_of d)))];
          stdout := stdout w ++ out |}) /\
    exists rest,
      user_message py_repr q (context_of d) =
      lit "Explain the concept: '" ++ py_str py_repr q ++ lit "'." ++ rest.
Proof.
  intros Hq Ht. rewrite (run_clarify_truthy _ _ _ _ _ _ Hq Ht).
  destruct (run_clarify_concept_total py_repr client svc q (context_of d) w)
    as (explanation & out & ->).
  exists explanation, out. split; [reflexivity|].
  unfold user_message, query_instruction.
  destruct (truthy (context_of d)).
  - eexists. rewrite <- !app_assoc. reflexivity.
  - exists []. rewrite app_nil_r. reflexivity.
Qed.

Lemma clarify_truthy_query_of_any_type_witness :
  exists explanation out,
    run Samples.down
        (clarify Samples.repr0 Samples.client0 (PDict [(lit "query", PInt (-42))]))
        Samples.world0 =
      (inr {| json := PDict [(lit "explanation", PStr explanation)]; status := 200 |},
       {| calls := [(Samples.client0,
                     completion_call (lit "Explain the concept: '-42'."))];
          stdout := out |}) /\
    exists rest,
      lit "Explain the concept: '-42'." =
      lit "Explain the concept: '" ++ lit "-42" ++ lit "'." ++ rest.
Proof.
  apply (clarify_truthy_query_of_any_type Samples.repr0 Samples.client0 Samples.down
           Samples.world0 [(lit "query", PInt (-42))] (PInt (-42))).
  - reflexivity.
  - reflexivity.
Defined.

(** ** What the view reads of the body *)

(** X3: the view reads two keys of the body and nothing else, and it
    reads the context through a truth test. Two [dict] bodies with the
    same [query] give the same program when their contexts are equal or
    are both falsy ([None], [False], [0], the empty string, an empty
    list, or no [context] key): other keys, and the order of the keys, do
    not matter. *)
Theorem clarify_depends_on_query_and_context
    (py_repr : pyval -> pystr) (client : OpenAI) (d1 d2 : list (pystr * pyval)) :
  dict_lookup (lit "query") d1 = dict_lookup (lit "query") d2 ->
  context_of d1 = context_of d2 \/
  (truthy (context_of d1) = false /\ truthy (context_of d2) = false) ->
  clarify py_repr client (PDict d1) = clarify py_repr client (PDict d2) /\
  (forall svc w,
     run svc (clarify py_repr client (PDict d1)) w =
     run svc (clarify py_repr client (PDict d2)) w).
Proof.
  intros Hq Hc.
  assert (Hum : forall q, user_message py_repr q (context_of d1) =
                          user_message py_repr q (context_of d2)).
  { intros q. destruct Hc as [-> | [H1 H2]]; [reflexivity|].
    unfold user_message. rewrite H1, H2. reflexivity. }
  assert (Heq : clarify py_repr client (PDict d1) = clarify py_repr client (PDict d2)).
  { unfold clarify. simpl get_method. cbn [bind]. rewrite Hq.
    fold (context_of d1). fold (context_of d2).
    destruct (negb (truthy (default PNone (dict_lookup (lit "query") d2))));
      [reflexivity|].
    unfold clarify_concept. rewrite Hum. reflexivity. }
  split; [exact Heq|]. intros svc w. rewrite Heq. reflexivity.
Qed.

Lemma clarify_depends_on_query_and_context_witness :
  clarify Samples.repr0 Samples.client0
    (PDict [(lit "query", PStr (lit "Mutex"))]) =
  clarify Samples.repr0 Samples.client0
    (PDict [(lit "lang", PStr (lit "en")); (lit "context", PNone);
            (lit "query", PStr (lit "Mutex"))]) /\
  (forall svc w,
     run svc (clarify Samples.repr0 Samples.client0
                (PDict [(lit "query", PStr (lit "Mutex"))])) w =
     run svc (clarify Samples.repr0 Samples.client0
                (PDict [(lit "lang", PStr (lit "en")); (lit "context", PNone);
                        (lit "query", PStr (lit "Mutex"))])) w).
Proof.
  apply (clarify_depends_on_query_and_context Samples.repr0 Samples.client0
           [(lit "query", PStr (lit "Mutex"))]
           [(lit "lang", PStr (lit "en")); (lit "context", PNone);
            (lit "query", PStr (lit "Mutex"))]).
  - reflexivity.
  - right. split; reflexivity.
Defined.

(** ** Quotes in the query *)

(** The program of the view once the validation has passed. *)
Lemma clarify_truthy_program
    (py_repr : pyval -> pystr) (client : OpenAI) (d : list (pystr * pyval)) (q : pyval) :
  dict_lookup (lit "query") d = Some q ->
  truthy q = true ->
  clarify py_repr client (PDict d) =
  (explanation <- clarify_concept py_repr client q (context_of d) ;;
   Return {| json := PDict [(lit "explanation", PStr explanation)]; status := 200 |}).
Proof.
  intros Hq Ht. unfold clarify. simpl get_method. cbn [bind].
  rewrite Hq. simpl default. rewrite Ht. reflexivity.
Qed.

(** X4: the query is put between quotes as it is, so a query can carry
    the context clause itself. A body whose only field is a [query] made
    of [a], the closing quote and the words of the clause, and [b], gives
    the same user instruction, hence the same program, as the body with
    [query] equal to [a] and [context] equal to [b]. *)
Theorem context_clause_forged_by_query
    (py_repr : pyval -> pystr) (client : OpenAI)
    (d1 d2 : list (pystr * pyval)) (a b : pystr) :
  dict_lookup (lit "query") d1 =
    Some (PStr (a ++ lit "'. Please explain it in the context of '" ++ b)) ->
  dict_lookup (lit "context") d1 = None ->
  dict_lookup (lit "query") d2 = Some (PStr a) ->
  dict_lookup (lit "context") d2 = Some (PStr b) ->
  a <> [] ->
  b <> [] ->
  user_message py_repr
    (PStr (a ++ lit "'. Please explain it in the context of '" ++ b)) (context_of d1) =
  user_message py_repr (PStr a) (context_of d2) /\
  clarify py_repr client (PDict d1) = clarify py_repr client (PDict d2).
Proof.
  intros Hq1 Hc1 Hq2 Hc2 Ha Hb.
  assert (Hum : user_message py_repr
                  (PStr (a ++ lit "'. Please explain it in the context of '" ++ b))
                  (context_of d1) =
                user_message py_repr (PStr a) (context_of d2)).
  { unfold context_of. rewrite Hc1, Hc2. simpl default.
    unfold user_message. rewrite (nonempty_truthy _ Hb).
    change (truthy (PStr (lit ""))) with false. cbv iota.
    unfold query_instruction, context_clause, py_str.
    change (lit "'. Please explain it in the context of '")
      with (lit "'." ++ lit " Please explain it in the context of '").
    rewrite <- !app_assoc. reflexivity. }
  split; [exact Hum|].
  assert (Hne : a ++ lit "'. Please explain it in the context of '" ++ b <> []).
  { destruct a; [congruence|discriminate]. }
  rewrite (clarify_truthy_program _ _ _ _ Hq1 (nonempty_truthy _ Hne)).
  rewrite (clarify_truthy_program _ _ _ _ Hq2 (nonempty_truthy _ Ha)).
  unfold clarify_concept. rewrite Hum. reflexivity.
Qed.

Lemma context_clause_forged_by_query_witness :
  user_message Samples.repr0
    (PStr (lit "Mutex" ++ lit "'. Please explain it in the context of '" ++
           lit "Operating Systems"))
    (context_of
       [(lit "query",
         PStr (lit "Mutex'. Please explain it in the context of 'Operating Systems"))]) =
  user_message Samples.repr0 (PStr (lit "Mutex")) (context_of Samples.mutex) /\
  clarify Samples.repr0 Samples.client0
    (PDict [(lit "query",
             PStr (lit "Mutex'. Please explain it in the context of 'Operating Systems"))]) =
  clarify Samples.repr0 Samples.client0 (PDict Samples.mutex).
Proof.
  apply (context_clause_forged_by_query Samples.repr0 Samples.client0
           [(lit "query",
             PStr (lit "Mutex'. Please explain it in the context of 'Operating Systems"))]
           Samples.mutex (lit "Mutex") (lit "Operating Systems")).
  - reflexivity.
  - reflexivity.
  - reflexivity.
  - reflexivity.
  - discriminate.
  - discriminate.
Defined.

(** ** The credential at start-up *)

(** X5: the test of the credential is a truth test. A variable that is
    set to the empty string aborts start-up with the same [ValueError] as
    a missing one, and any non-empty value, whatever its form, starts the
    process with a client that holds exactly this value. *)
Theorem startup_by_credential_value
    (dotenv os_environ : gmap (list N) (list N)) (key : pystr) :
  load_dotenv dotenv os_environ !! lit "OPENAI_API_KEY" = Some key ->
  (key = [] ->
   startup dotenv os_environ = Aborted (ValueError missing_key_message)) /\
  (key <> [] ->
   startup dotenv os_environ = Serving {| api_key := key |}).
Proof.
  intros H. unfold startup, read_credential. rewrite H. split.
  - intros ->. reflexivity.
  - intros Hne. destruct key; [congruence|reflexivity].
Qed.

Lemma startup_by_credential_value_witness :
  startup ∅ {[ lit "OPENAI_API_KEY" := lit "" ]} =
    Aborted (ValueError missing_key_message) /\
  startup ∅ Samples.with_key = Serving {| api_key := lit "sk-test" |}.
Proof.
  split.
  - apply (startup_by_credential_value ∅ {[ lit "OPENAI_API_KEY" := lit "" ]} (lit ""));
      reflexivity.
  - apply (startup_by_credential_value ∅ Samples.with_key (lit "sk-test"));
      [reflexivity|discriminate].
Defined.

(** X6: where the credential comes from. A variable of the process
    environment wins over the [.env] file, even when it is empty: the
    file then changes nothing. The file is used only when the process
    environment does not have the variable. *)
Theorem startup_environment_before_dotenv
    (dotenv os_environ : gmap (list N) (list N)) (key : pystr) :
  (os_environ !! lit "OPENAI_API_KEY" = Some key ->
   startup dotenv os_environ = startup ∅ os_environ) /\
  (os_environ !! lit "OPENAI_API_KEY" = None ->
   dotenv !! lit "OPENAI_API_KEY" = Some key ->
   key <> [] ->
   startup dotenv os_environ = Serving {| api_key := key |}).
Proof.
  split.
  - intros H. unfold startup, read_credential, load_dotenv.
    rewrite (lookup_union_Some_l _ _ _ _ H), (lookup_union_Some_l _ _ _ _ H).
    reflexivity.
  - intros Hn Hd Hne. unfold startup, read_credential, load_dotenv.
    rewrite (lookup_union_r _ _ _ Hn), Hd.
    destruct key; [congruence|reflexivity].
Qed.

Lemma startup_environment_before_dotenv_witness :
  startup Samples.with_key {[ lit "OPENAI_API_KEY" := lit "" ]} =
    startup ∅ {[ lit "OPENAI_API_KEY" := lit "" ]} /\
  startup Samples.with_key ∅ = Serving {| api_key := lit "sk-test" |}.
Proof.
  split.
  - apply (startup_environment_before_dotenv Samples.with_key
             {[ lit "OPENAI_API_KEY" := lit "" ]} (lit "")).
    reflexivity.
  - apply (startup_environment_before_dotenv Samples.with_key ∅ (lit "sk-test")).
    + reflexivity.
    + reflexivity.
    + discriminate.
Defined.

(** ** A text without surrounding whitespace *)

(** X7: the relay changes nothing in a generated text that neither starts
    nor ends with a whitespace character (the empty text included): for a
    valid body the [explanation] is then the text itself, inner
    whitespace included. *)
Theorem clarify_relays_trimmed_text_unchanged
    (py_repr : pyval -> pystr) (client : OpenAI) (svc : service) (w : world)
    (d : list (pystr * pyval)) (q : pyval) (text : pystr) :
  dict_lookup (lit "query") d = Some q ->
  truthy q = true ->
  generated (answer py_repr client svc q (context_of d) w) text ->
  (forall c, head text = Some c -> PyStr.isspace c = false) ->
  (forall c, last text = Some c -> PyStr.isspace c = false) ->
  (run svc (clarify py_repr client (PDict d)) w).1 =
    inr {| json := PDict [(lit "explanation", PStr text)]; status := 200 |}.
Proof.
  intros Hq Ht Hg Hh Hl.
  rewrite (run_clarify_truthy _ _ _ _ _ _ Hq Ht).
  rewrite (run_clarify_concept_success _ _ _ _ _ _ _ Hg).
  simpl. rewrite (strip_id _ Hh Hl). reflexivity.
Qed.

Lemma clarify_relays_trimmed_text_unchanged_witness :
  (run (Samples.says (lit "A lock,  held by one thread."))
       (clarify Samples.repr0 Samples.client0 (PDict Samples.mutex)) Samples.world0).1 =
    inr {| json := PDict [(lit "explanation", PStr (lit "A lock,  held by one thread."))];
           status := 200 |}.
Proof.
  apply (clarify_relays_trimmed_text_unchanged Samples.repr0 Samples.client0
           (Samples.says (lit "A lock,  held by one thread.")) Samples.world0
           Samples.mutex (PStr (lit "Mutex")) (lit "A lock,  held by one thread.")).
  - reflexivity.
  - reflexivity.
  - exact (first_choice (Samples.reply (Some (lit "A lock,  held by one thread.")))
             _ [] _ eq_refl eq_refl).
  - intros c [= <-]. reflexivity.
  - intros c [= <-]. reflexivity.
Defined.

(** * The script of the page *)

(** ** [trim] *)

Lemma js_blank_rev (s : pystr) :
  forallb Page.js_whitespace (rev s) = forallb Page.js_whitespace s.
Proof.
  induction s as [|c s IH]; [reflexivity|].
  simpl. rewrite forallb_app, IH. simpl. rewrite andb_true_r. apply andb_comm.
Qed.

Lemma trim_start_split (s : pystr) :
  exists l, s = l ++ Page.trim_start s /\ forallb Page.js_whitespace l = true.
Proof.
  induction s as [|c s [l [Hs Hl]]].
  - exists []. split; reflexivity.
  - simpl. destruct (Page.js_whitespace c) eqn:Hc.
    + exists (c :: l). split; [simpl; congruence|]. simpl. rewrite Hc. exact Hl.
    + exists []. split; reflexivity.
Qed.

Lemma trim_start_head (s : pystr) (c : N) :
  head (Page.trim_start s) = Some c -> Page.js_whitespace c = false.
Proof.
  induction s as [|a s IH]; simpl; [discriminate|].
  destruct (Page.js_whitespace a) eqn:Ha; [exact IH|].
  simpl. intros [= <-]. exact Ha.
Qed.

Lemma trim_start_nil_iff (s : pystr) :
  Page.trim_start s = [] <-> forallb Page.js_whitespace s = true.
Proof.
  induction s as [|a s IH]; simpl; [tauto|].
  destruct (Page.js_whitespace a); simpl; [exact IH|].
  split; discriminate.
Qed.

Lemma trim_end_nil_iff (s : pystr) :
  Page.trim_end s = [] <-> forallb Page.js_whitespace s = true.
Proof.
  unfold Page.trim_end. rewrite <- (js_blank_rev s), <- trim_start_nil_iff.
  split; intros H.
  - apply (f_equal (@rev N)) in H. rewrite rev_involutive in H. exact H.
  - rewrite H. reflexivity.
Qed.

Lemma trim_end_prefix (s : pystr) : exists r, s = Page.trim_end s ++ r.
Proof.
  destruct (trim_start_split (rev s)) as [l [Hs _]].
  exists (rev l). unfold Page.trim_end.
  rewrite <- rev_app_distr, <- Hs. symmetry. apply rev_involutive.
Qed.

(** [trim] leaves the empty string exactly on whitespace. *)
Lemma trim_nil_iff (s : pystr) :
  Page.trim s = [] <-> forallb Page.js_whitespace s = true.
Proof.
  unfold Page.trim. rewrite trim_end_nil_iff.
  destruct (trim_start_split s) as [l [Hs Hl]].
  rewrite Hs at 2. rewrite forallb_app, Hl. reflexivity.
Qed.

Lemma trim_head (s : pystr) (c : N) :
  head (Page.trim s) = Some c -> Page.js_whitespace c = false.
Proof.
  unfold Page.trim. intros H. apply (trim_start_head s).
  destruct (trim_end_prefix (Page.trim_start s)) as [r Hr].
  rewrite Hr. destruct (Page.trim_end (Page.trim_start s)); [discriminate|exact H].
Qed.

Lemma trim_last (s : pystr) (c : N) :
  last (Page.trim s) = Some c -> Page.js_whitespace c = false.
Proof.
  unfold Page.trim, Page.trim_end. rewrite last_rev_head. apply trim_start_head.
Qed.

Lemma nonempty_false_iff (s : pystr) : PyStr.nonempty s = false <-> s = [].
Proof. destruct s; simpl; split; congruence. Qed.

Lemma trim_nonempty (s : pystr) :
  forallb Page.js_whitespace s = false -> PyStr.nonempty (Page.trim s) = true.
Proof.
  intros H. destruct (PyStr.nonempty (Page.trim s)) eqn:Hn; [reflexivity|].
  apply nonempty_false_iff, trim_nil_iff in Hn. congruence.
Qed.

(** ** Running composed scripts *)

Section ExecFacts.

Context {S A : Type} (net : pystr -> Page.fetch_init -> S -> Page.fetch_outcome * S).

Lemma exec_bind {B : Type} (p : Page.js A) (f : A -> Page.js B) (s : S) :
  Page.exec net (Page.js_bind p f) s =
  match Page.exec net p s with
  | (inr a, s') => Page.exec net (f a) s'
  | (inl e, s') => (inl e, s')
  end.
Proof.
  revert s. induction p as [a|e|url init k IH]; intros s; simpl.
  - reflexivity.
  - reflexivity.
  - destruct (net url init s) as [o s']. apply IH.
Qed.

Lemma exec_try_catch (p : Page.js A) (h : Page.js_error -> Page.js A) (s : S) :
  Page.exec net (Page.try_catch p h) s =
  match Page.exec net p s with
  | (inr a, s') => (inr a, s')
  | (inl e, s') => Page.exec net (h e) s'
  end.
Proof.
  revert s. induction p as [a|e|url init k IH]; intros s; simpl.
  - reflexivity.
  - reflexivity.
  - destruct (net url init s) as [o s']. apply IH.
Qed.

End ExecFacts.

(** ** The handler of the form *)

Ltac start_submit H :=
  unfold Page.on_submit; rewrite (trim_nonempty _ H); cbn [negb];
  rewrite exec_bind, exec_try_catch, exec_bind;
  unfold Page.fetch; cbn [Page.exec].

(** X8: a concept made of whitespace only (or empty) never reaches the
    network. The handler makes no request, shows "Please enter a concept
    to clarify." and leaves the rest of the page, the loading indicator
    and the button included, as it was. *)
Theorem on_submit_blank_concept
    (js_repr : pyval -> pystr) (null_property_error : pystr -> Page.js_error)
    (reply : list (pystr * Page.fetch_init) -> pystr -> Page.fetch_init -> Page.fetch_outcome)
    (sent : list (pystr * Page.fetch_init)) (page : Page.dom) :
  forallb Page.js_whitespace (Page.conceptInput_value page) = true ->
  Page.exec (Page.recording reply)
    (Page.on_submit js_repr null_property_error page) sent =
    (inr {| Page.conceptInput_value := Page.conceptInput_value page;
            Page.contextInput_value := Page.contextInput_value page;
            Page.responseText_textContent := lit "Please enter a concept to clarify.";
            Page.loadingIndicator_style_display :=
              Page.loadingIndicator_style_display page;
            Page.submitButton_disabled := Page.submitButton_disabled page;
            Page.console := Page.console page |},
     sent).
Proof.
  intros H. apply trim_nil_iff in H. unfold Page.on_submit. rewrite H. reflexivity.
Qed.

Lemma on_submit_blank_concept_witness :
  Page.exec (Page.recording PageSamples.bad_request)
    (Page.on_submit PageSamples.js_repr0 PageSamples.null_error0
       (PageSamples.filled (lit "   ") (lit "Operating Systems"))) [] =
    (inr {| Page.conceptInput_value := lit "   ";
            Page.contextInput_value := lit "Operating Systems";
            Page.responseText_textContent := lit "Please enter a concept to clarify.";
            Page.loadingIndicator_style_display := lit "";
            Page.submitButton_disabled := false;
            Page.console := [] |},
     []).
Proof.
  apply (on_submit_blank_concept PageSamples.js_repr0 PageSamples.null_error0
           PageSamples.bad_request []
           (PageSamples.filled (lit "   ") (lit "Operating Systems"))).
  reflexivity.
Defined.

(** X9: for a concept with a character that is not whitespace, and
    whatever the network answers (a rejection, a body that is not JSON,
    any status and any datum), the handler makes exactly one request,
    [POST /clarify] with a JSON body whose [query] and [context] are the
    trimmed inputs, lets no exception out, and ends with the loading
    indicator hidden and the button enabled; the query it sends is not
    empty and has no whitespace at either end. *)
Theorem on_submit_one_request_then_unlocked
    (js_repr : pyval -> pystr) (null_property_error : pystr -> Page.js_error)
    (reply : list (pystr * Page.fetch_init) -> pystr -> Page.fetch_init -> Page.fetch_outcome)
    (sent : list (pystr * Page.fetch_init)) (page : Page.dom) :
  forallb Page.js_whitespace (Page.conceptInput_value page) = false ->
  exists page',
    Page.exec (Page.recording reply)
      (Page.on_submit js_repr null_property_error page) sent =
      (inr page',
       sent ++
       [(lit "/clarify",
         {| Page.method := lit "POST";
            Page.headers := [(lit "Content-Type", lit "application/json")];
            Page.body :=
              PDict [(lit "query", PStr (Page.trim (Page.conceptInput_value page)));
                     (lit "context", PStr (Page.trim (Page.contextInput_value page)))] |})]) /\
    Page.loadingIndicator_style_display page' = lit "none" /\
    Page.submitButton_disabled page' = false /\
    Page.conceptInput_value page' = Page.conceptInput_value page /\
    Page.contextInput_value page' = Page.contextInput_value page /\
    Page.trim (Page.conceptInput_value page) <> [] /\
    (forall c, head (Page.trim (Page.conceptInput_value page)) = Some c ->
               Page.js_whitespace c = false) /\
    (forall c, last (Page.trim (Page.conceptInput_value page)) = Some c ->
               Page.js_whitespace c = false).
Proof.
  intros H. start_submit H. unfold Page.recording.
  assert (Hne : Page.trim (Page.conceptInput_value page) <> []).
  { intros E. apply trim_nil_iff in E. congruence. }
  assert (Hends :
    Page.trim (Page.conceptInput_value page) <> [] /\
    (forall c, head (Page.trim (Page.conceptInput_value page)) = Some c ->
               Page.js_whitespace c = false) /\
    (forall c, last (Page.trim (Page.conceptInput_value page)) = Some c ->
               Page.js_whitespace c = false)).
  { split; [exact Hne|]. split; [apply trim_head|apply trim_last]. }
  destruct (reply _ _ _) as [e|[ok [e|v]]];
    cbn [Page.exec Page.js_bind Page.try_catch Page.response_json Page.json Page.ok negb].
  - eexists. split; [reflexivity|]. repeat (split; [reflexivity|]). exact Hends.
  - destruct ok; cbn;
      (eexists; split; [reflexivity|]; repeat (split; [reflexivity|]); exact Hends).
  - destruct ok, v; cbn;
      (eexists; split; [reflexivity|]; repeat (split; [reflexivity|]); exact Hends).
Qed.

Lemma on_submit_one_request_then_unlocked_witness :
  exists page',
    Page.exec (Page.recording PageSamples.bad_request)
      (Page.on_submit PageSamples.js_repr0 PageSamples.null_error0
         (PageSamples.filled (lit " Mutex ") (lit "  "))) [] =
      (inr page',
       [] ++
       [(lit "/clarify",
         {| Page.method := lit "POST";
            Page.headers := [(lit "Content-Type", lit "application/json")];
            Page.body :=
              PDict [(lit "query", PStr (Page.trim (lit " Mutex ")));
                     (lit "context", PStr (Page.trim (lit "  ")))] |})]) /\
    Page.loadingIndicator_style_display page' = lit "none" /\
    Page.submitButton_disabled page' = false /\
    Page.conceptInput_value page' = lit " Mutex " /\
    Page.contextInput_value page' = lit "  " /\
    Page.trim (lit " Mutex ") <> [] /\
    (forall c, head (Page.trim (lit " Mutex ")) = Some c -> Page.js_whitespace c = false) /\
    (forall c, last (Page.trim (lit " Mutex ")) = Some c -> Page.js_whitespace c = false).
Proof.
  apply (on_submit_one_request_then_unlocked PageSamples.js_repr0 PageSamples.null_error0
           PageSamples.bad_request [] (PageSamples.filled (lit " Mutex ") (lit "  "))).
  reflexivity.
Defined.



(** ** The page served by the application *)

(** The application answers the request of the handler with what the
    view returns for the body. *)
Lemma flask_clarify_post
    (py_repr : pyval -> pystr) (client : OpenAI) (svc : service)
    (not_json : Page.js_error) (data : pyval) (w : world) :
  flask py_repr client svc not_json (lit "/clarify")
    {| Page.method := lit "POST";
       Page.headers := [(lit "Content-Type", lit "application/json")];
       Page.body := data |} w =
  match run svc (clarify py_repr client data) w with
  | (inr resp, w') =>
      (inr {| Page.ok := (200 <=? status resp) && (status resp <=? 299);
              Page.json := inr (json resp) |}, w')
  | (inl e, w') => (inr {| Page.ok := false; Page.json := inl not_json |}, w')
  end.
Proof. reflexivity. Qed.

(** The page after a request that the view answered with [explanation]. *)
Lemma exec_page_flask
    (js_repr : pyval -> pystr) (null_property_error : pystr -> Page.js_error)
    (py_repr : pyval -> pystr) (client : OpenAI) (svc : service)
    (not_json : Page.js_error) (page : Page.dom) (w w' : world) (explanation : pystr) :
  forallb Page.js_whitespace (Page.conceptInput_value page) = false ->
  run svc (clarify_concept py_repr client
             (PStr (Page.trim (Page.conceptInput_value page)))
             (PStr (Page.trim (Page.contextInput_value page)))) w =
    (inr explanation, w') ->
  Page.exec (flask py_repr client svc not_json)
    (Page.on_submit js_repr null_property_error page) w =
  (inr {| Page.conceptInput_value := Page.conceptInput_value page;
          Page.contextInput_value := Page.contextInput_value page;
          Page.responseText_textContent := explanation;
          Page.loadingIndicator_style_display := lit "none";
          Page.submitButton_disabled := false;
          Page.console := Page.console page |},
   w').
Proof.
  intros H Hrun. start_submit H. rewrite flask_clarify_post.
  rewrite (run_clarify_truthy py_repr client svc
             [(lit "query", PStr (Page.trim (Page.conceptInput_value page)));
              (lit "context", PStr (Page.trim (Page.contextInput_value page)))]
             (PStr (Page.trim (Page.conceptInput_value page))) w eq_refl
             (trim_nonempty _ H)).
  change (context_of _) with (PStr (Page.trim (Page.contextInput_value page))).
  rewrite Hrun. reflexivity.
Qed.

(** X11: the page served by the application. For a concept with a
    character that is not whitespace the view is reached with a
    non-empty string [query] and a string [context], so it never answers
    400: the completion service is called once and the page shows the
    [explanation] of the 200 response, with nothing logged to the
    console. When the completion service fails, what the page shows as
    the explanation is the apology: the failure is not shown as an error. *)
Theorem page_shows_explanation
    (js_repr : pyval -> pystr) (null_property_error : pystr -> Page.js_error)
    (py_repr : pyval -> pystr) (client : OpenAI) (svc : service)
    (not_json : Page.js_error) (page : Page.dom) (w : world) :
  forallb Page.js_whitespace (Page.conceptInput_value page) = false ->
  exists explanation out,
    Page.exec (flask py_repr client svc not_json)
      (Page.on_submit js_repr null_property_error page) w =
      (inr {| Page.conceptInput_value := Page.conceptInput_value page;
              Page.contextInput_value := Page.contextInput_value page;
              Page.responseText_textContent := explanation;
              Page.loadingIndicator_style_display := lit "none";
              Page.submitButton_disabled := false;
              Page.console := Page.console page |},
       {| calls := calls w ++
                   [call_of py_repr client
                      (PStr (Page.trim (Page.conceptInput_value page)))
                      (PStr (Page.trim (Page.contextInput_value page)))];
          stdout := stdout w ++ out |}) /\
    ((exists text,
        generated (answer py_repr client svc
                     (PStr (Page.trim (Page.conceptInput_value page)))
                     (PStr (Page.trim (Page.contextInput_value page))) w) text /\
        explanation = PyStr.strip text /\ out = []) \/
     (exists e,
        upstream_failure (answer py_repr client svc
                            (PStr (Page.trim (Page.conceptInput_value page)))
                            (PStr (Page.trim (Page.contextInput_value page))) w) e /\
        explanation =
          lit "I apologize, but I couldn't generate an explanation at this moment. Please try again later." /\
        out = [lit "Error calling OpenAI API: " ++ exc_str e])).
Proof.
  intros H.
  destruct (outcome_cases
              (answer py_repr client svc
                 (PStr (Page.trim (Page.conceptInput_value page)))
                 (PStr (Page.trim (Page.contextInput_value page))) w))
    as [[e He]|[text Ht]].
  - exists fallback, [log_line e]. split.
    + apply (exec_page_flask _ _ _ _ _ _ _ _ _ _ H).
      apply run_clarify_concept_failure, He.
    + right. exists e. auto.
  - exists (PyStr.strip text), []. split.
    + apply (exec_page_flask _ _ _ _ _ _ _ _ _ _ H).
      rewrite app_nil_r. apply run_clarify_concept_success, Ht.
    + left. exists text. auto.
Qed.

Lemma page_shows_explanation_witness :
  exists explanation out,
    Page.exec (flask Samples.repr0 Samples.client0 Samples.down PageSamples.not_json0)
      (Page.on_submit PageSamples.js_repr0 PageSamples.null_error0
         (PageSamples.filled (lit " Mutex ") (lit "Operating Systems"))) Samples.world0 =
      (inr {| Page.conceptInput_value := lit " Mutex ";
              Page.contextInput_value := lit "Operating Systems";
              Page.responseText_textContent := explanation;
              Page.loadingIndicator_style_display := lit "none";
              Page.submitButton_disabled := false;
              Page.console := [] |},
       {| calls := calls Samples.world0 ++
                   [call_of Samples.repr0 Samples.client0
                      (PStr (Page.trim (lit " Mutex ")))
                      (PStr (Page.trim (lit "Operating Systems")))];
          stdout := stdout Samples.world0 ++ out |}) /\
    ((exists text,
        generated (answer Samples.repr0 Samples.client0 Samples.down
                     (PStr (Page.trim (lit " Mutex ")))
                     (PStr (Page.trim (lit "Operating Systems"))) Samples.world0) text /\
        explanation = PyStr.strip text /\ out = []) \/
     (exists e,
        upstream_failure (answer Samples.repr0 Samples.client0 Samples.down
                            (PStr (Page.trim (lit " Mutex ")))
                            (PStr (Page.trim (lit "Operating Systems"))) Samples.world0) e /\
        explanation =
          lit "I apologize, but I couldn't generate an explanation at this moment. Please try again later." /\
        out = [lit "Error calling OpenAI API: " ++ exc_str e])).
Proof.
  apply (page_shows_explanation PageSamples.js_repr0 PageSamples.null_error0
           Samples.repr0 Samples.client0 Samples.down PageSamples.not_json0
           (PageSamples.filled (lit " Mutex ") (lit "Operating Systems")) Samples.world0).
  reflexivity.
Defined.

(** X12: the prompt for what is typed in the page. For a concept with a
    character that is not whitespace, the user instruction of the one
    call quotes the trimmed concept; it has the context clause, which
    quotes the trimmed context, exactly when the context field has a
    character that is not whitespace. *)
Theorem page_prompt
    (js_repr : pyval -> pystr) (null_property_error : pystr -> Page.js_error)
    (py_repr : pyval -> pystr) (client : OpenAI) (svc : service)
    (not_json : Page.js_error) (page : Page.dom) (w : world) :
  forallb Page.js_whitespace (Page.conceptInput_value page) = false ->
  exists instruction,
    calls (Page.exec (flask py_repr client svc not_json)
             (Page.on_submit js_repr null_property_error page) w).2 =
      calls w ++ [(client, completion_call instruction)] /\
    (forallb Page.js_whitespace (Page.contextInput_value page) = true ->
     instruction =
       lit "Explain the concept: '" ++ Page.trim (Page.conceptInput_value page) ++ lit "'.") /\
    (forallb Page.js_whitespace (Page.contextInput_value page) = false ->
     instruction =
       (lit "Explain the concept: '" ++ Page.trim (Page.conceptInput_value page) ++ lit "'.") ++
       (lit " Please explain it in the context of '" ++
        Page.trim (Page.contextInput_value page) ++ lit "'.")).
Proof.
  intros H.
  exists (user_message py_repr (PStr (Page.trim (Page.conceptInput_value page)))
            (PStr (Page.trim (Page.contextInput_value page)))).
  split; [|split].
  - destruct (run_clarify_concept_total py_repr client svc
                (PStr (Page.trim (Page.conceptInput_value page)))
                (PStr (Page.trim (Page.contextInput_value page))) w)
      as (explanation & out & Hrun).
    rewrite (exec_page_flask js_repr null_property_error _ _ _ not_json _ _ _ _ H Hrun).
    reflexivity.
  - intros Hb. apply trim_nil_iff in Hb. unfold user_message. rewrite Hb. reflexivity.
  - intros Hb. unfold user_message. cbn [truthy]. rewrite (trim_nonempty _ Hb).
    reflexivity.
Qed.

Lemma page_prompt_witness :
  calls (Page.exec (flask Samples.repr0 Samples.client0 Samples.down PageSamples.not_json0)
           (Page.on_submit PageSamples.js_repr0 PageSamples.null_error0
              (PageSamples.filled (lit " Mutex ") (lit "   "))) Samples.world0).2 =
    [(Samples.client0, completion_call (lit "Explain the concept: 'Mutex'."))] /\
  calls (Page.exec (flask Samples.repr0 Samples.client0 Samples.down PageSamples.not_json0)
           (Page.on_submit PageSamples.js_repr0 PageSamples.null_error0
              (PageSamples.filled (lit " Mutex ") (lit " Operating Systems  ")))
           Samples.world0).2 =
    [(Samples.client0,
      completion_call
        (lit "Explain the concept: 'Mutex'. Please explain it in the context of 'Operating Systems'."))].
Proof.
  split.
  - destruct (page_prompt PageSamples.js_repr0 PageSamples.null_error0
                Samples.repr0 Samples.client0 Samples.down PageSamples.not_json0
                (PageSamples.filled (lit " Mutex ") (lit "   ")) Samples.world0)
      as (instruction & Hcalls & Hblank & _).
    + reflexivity.
    + rewrite Hcalls, Hblank; reflexivity.
  - destruct (page_prompt PageSamples.js_repr0 PageSamples.null_error0
                Samples.repr0 Samples.client0 Samples.down PageSamples.not_json0
                (PageSamples.filled (lit " Mutex ") (lit " Operating Systems  "))
                Samples.world0)
      as (instruction & Hcalls & _ & Hctx).
    + reflexivity.
    + rewrite Hcalls, Hctx; reflexivity.
Defined.
